(** * terraform-provider-rems-content: the form resource and the field functions

    A shallow embedding of
      - internal/provider/resources/form_resource.go (FormResource),
      - internal/provider/functions/form_field_header_function.go,
      - the form_field_label function of package functions,
      - the provider of package provider (its resource table),
    together with the part of the Terraform plugin framework and of the
    generated REMS client these files call.

    Mutation of [resp] is written as explicit state passing; every REMS
    request and every log line a handler emits is recorded in a trace. *)

From Stdlib Require Import ZArith Ascii String.
From stdpp Require Import base strings list gmap fin_maps.

Local Open Scope string_scope.
Local Open Scope list_scope.

(** ** Terraform plugin framework: attribute values *)

Module attr.

(** A framework value is null, unknown, or known ([attr.ValueState]). *)
Inductive Value (A : Type) : Type :=
| ValueNull
| ValueUnknown
| ValueKnown (a : A).
Global Arguments ValueNull {A}.
Global Arguments ValueUnknown {A}.
Global Arguments ValueKnown {A} a.

Definition IsNull {A} (v : Value A) : bool :=
  match v with ValueNull => true | _ => false end.

Definition IsUnknown {A} (v : Value A) : bool :=
  match v with ValueUnknown => true | _ => false end.

(** [ValueString], [ValueBool], [ValueInt64]: the known value, or the
    zero value of the Go type when null or unknown. *)
Definition value_or {A} (zero : A) (v : Value A) : A :=
  match v with ValueKnown a => a | _ => zero end.

Global Instance Value_eq_dec {A} `{EqDecision A} : EqDecision (Value A).
Proof. solve_decision. Defined.

End attr.

Module types.
Abbreviation String := (attr.Value string).
Abbreviation Bool := (attr.Value bool).
Abbreviation Int64 := (attr.Value Z).
(** [types.Map] with [ElementType: types.StringType]. *)
Abbreviation Map := (attr.Value (gmap string (attr.Value string))).

Definition StringValue (s : string) : String := attr.ValueKnown s.
Definition BoolValue (b : bool) : Bool := attr.ValueKnown b.
Definition Int64Value (n : Z) : Int64 := attr.ValueKnown n.
Definition ValueString (v : String) : string := attr.value_or "" v.
Definition ValueBool (v : Bool) : bool := attr.value_or false v.
Definition ValueInt64 (v : Int64) : Z := attr.value_or 0%Z v.
End types.

(** A Go [map[string]string]: [None] is the nil map. *)
Abbreviation GoMap := (option (gmap string string)).

(** ** net/http: the part of a response the provider looks at *)

Module http.

Record Response := {
  Status : string;
  StatusCode : Z;
}.

Global Instance Response_eq_dec : EqDecision Response.
Proof. solve_decision. Defined.

End http.

(** ** Terraform plugin framework: diagnostics *)

Module diag.

Inductive Severity := SeverityError | SeverityWarning.

Global Instance Severity_eq_dec : EqDecision Severity.
Proof. solve_decision. Defined.

(** The arguments of a [fmt.Sprintf] call that are not plain strings are
    kept as data: the text Go prints for them is not reproduced. *)
Inductive Arg :=
| ArgString (s : string)
| ArgResponse (r : option http.Response)
| ArgErrors (errs : list string).

Global Instance Arg_eq_dec : EqDecision Arg.
Proof. solve_decision. Defined.

Inductive Text :=
| Lit (s : string)
| Sprintf (format : string) (args : list Arg).

Global Instance Text_eq_dec : EqDecision Text.
Proof. solve_decision. Defined.

Record Diagnostic := {
  Severity_ : Severity;
  Summary : string;
  Detail : Text;
}.

Global Instance Diagnostic_eq_dec : EqDecision Diagnostic.
Proof. solve_decision. Defined.

Abbreviation Diagnostics := (list Diagnostic).

Definition NewErrorDiagnostic (summary : string) (detail : Text) : Diagnostic :=
  {| Severity_ := SeverityError; Summary := summary; Detail := detail |}.

Definition is_error (d : Diagnostic) : bool :=
  bool_decide (Severity_ d = SeverityError).

(** [Diagnostics.HasError]. *)
Definition HasError (diags : Diagnostics) : bool := existsb is_error diags.

(** [Diagnostics.Contains]. *)
Definition Contains (diags : Diagnostics) (d : Diagnostic) : bool :=
  bool_decide (d ∈ diags).

(** [Diagnostics.Append]: duplicates of a diagnostic already present are
    skipped. *)
Fixpoint Append (diags : Diagnostics) (new : Diagnostics) : Diagnostics :=
  match new with
  | [] => diags
  | d :: rest =>
      if Contains diags d then Append diags rest
      else Append (diags ++ [d]) rest
  end.

(** [Diagnostics.AddError]. *)
Definition AddError (diags : Diagnostics) (summary : string) (detail : Text)
  : Diagnostics :=
  Append diags [NewErrorDiagnostic summary detail].

End diag.

(** ** Terraform plugin framework: converting values into Go values

    [ElementsAs], [Plan.Get], [State.Get] and [Arguments.Get] go through the
    framework's reflection: a null or unknown value converted into a Go type
    that cannot hold it is an error. *)

Module reflect.

Inductive ConversionError := UnhandledNull | UnhandledUnknown.

Inductive Conversion (A : Type) : Type :=
| Converted (a : A)
| Failed (why : ConversionError).
Global Arguments Converted {A} a.
Global Arguments Failed {A} why.

(** The Go variable passed as [&target] after the conversion: it is
    written only on success. *)
Definition into {A} (target : A) (c : Conversion A) : A :=
  match c with Converted a => a | Failed _ => target end.

Definition error_text (why : ConversionError) : string :=
  match why with
  | UnhandledNull =>
      "Received null value, however the target type cannot handle null values."
  | UnhandledUnknown =>
      "Received unknown value, however the target type cannot handle unknown values."
  end.

(** The diagnostics returned with the conversion. *)
Definition diags {A} (c : Conversion A) : diag.Diagnostics :=
  match c with
  | Converted _ => []
  | Failed why =>
      [diag.NewErrorDiagnostic "Value Conversion Error" (diag.Lit (error_text why))]
  end.

(** Target of a Go type that cannot be nil (string, bool, struct). *)
Definition to_value {A} (v : attr.Value A) : Conversion A :=
  match v with
  | attr.ValueUnknown => Failed UnhandledUnknown
  | attr.ValueNull => Failed UnhandledNull
  | attr.ValueKnown a => Converted a
  end.

(** Every element of a collection converted by [f]; the first failure
    ends the conversion. *)
Fixpoint to_list {A B} (f : A → Conversion B) (l : list A) : Conversion (list B) :=
  match l with
  | [] => Converted []
  | x :: rest =>
      match f x with
      | Failed why => Failed why
      | Converted b =>
          match to_list f rest with
          | Failed why => Failed why
          | Converted bs => Converted (b :: bs)
          end
      end
  end.

(** Target [[]T]: a null list is the nil slice. *)
Definition to_slice {A B} (f : A → Conversion B) (v : attr.Value (list A))
  : Conversion (list B) :=
  match v with
  | attr.ValueUnknown => Failed UnhandledUnknown
  | attr.ValueNull => Converted []
  | attr.ValueKnown elems => to_list f elems
  end.

(** Target [map[string]string]: a null map is the nil map; a null or
    unknown element is an error. When several elements fail Go reports the
    one its map iteration meets first; here it is the first in key order. *)
Definition to_string_map (v : types.Map) : Conversion GoMap :=
  match v with
  | attr.ValueUnknown => Failed UnhandledUnknown
  | attr.ValueNull => Converted None
  | attr.ValueKnown elems =>
      match to_list (λ kv, to_value kv.2) (map_to_list elems) with
      | Failed why => Failed why
      | Converted _ => Converted (Some (types.ValueString <$> elems))
      end
  end.

End reflect.


(** ** Terraform plugin framework: tflog and the trace of a handler *)

Module tflog.
Inductive Level := Trace | Info.
End tflog.

(** ** The generated REMS client *)

Module remsclient.

(** Modelled from the spec: the generated REST client [remsclient] is an
    OpenAPI binding that is not among the sources. Its values are the records
    the generator emits for the REMS schemas, restricted to the properties
    [FormResource.Create] sets or reads; a nullable property is a
    [NullableString] (a value and an is-set flag). *)
Record OrganizationId := {
  OrganizationId_ : string;
}.

Definition NewOrganizationId (organizationId : string) : OrganizationId :=
  {| OrganizationId_ := organizationId |}.

Record NullableString := {
  value : option string;
  isSet : bool;
}.

Record NewFieldTemplate := {
  FieldTitle : GoMap;
  FieldType : string;
  FieldOptional : bool;
  FieldId : option string;
}.

(** [NewNewFieldTemplate(fieldTitle, fieldType, fieldOptional)]. *)
Definition NewNewFieldTemplate (fieldTitle : GoMap) (fieldType : string)
    (fieldOptional : bool) : NewFieldTemplate :=
  {| FieldTitle := fieldTitle; FieldType := fieldType;
     FieldOptional := fieldOptional; FieldId := None |}.

Definition SetFieldId (o : NewFieldTemplate) (v : string) : NewFieldTemplate :=
  {| FieldTitle := FieldTitle o; FieldType := FieldType o;
     FieldOptional := FieldOptional o; FieldId := Some v |}.

Record CreateFormCommand := {
  Organization : OrganizationId;
  FormTitle : NullableString;
  FormFields : list NewFieldTemplate;
}.

Definition NewCreateFormCommandWithDefaults : CreateFormCommand :=
  {| Organization := {| OrganizationId_ := "" |};
     FormTitle := {| value := None; isSet := false |};
     FormFields := [] |}.

Definition SetOrganization (o : CreateFormCommand) (v : OrganizationId)
  : CreateFormCommand :=
  {| Organization := v; FormTitle := FormTitle o; FormFields := FormFields o |}.

Definition SetFormTitle (o : CreateFormCommand) (v : string) : CreateFormCommand :=
  {| Organization := Organization o;
     FormTitle := {| value := Some v; isSet := true |};
     FormFields := FormFields o |}.

Definition SetFormTitleNil (o : CreateFormCommand) : CreateFormCommand :=
  {| Organization := Organization o;
     FormTitle := {| value := None; isSet := true |};
     FormFields := FormFields o |}.

Definition SetFormFields (o : CreateFormCommand) (v : list NewFieldTemplate)
  : CreateFormCommand :=
  {| Organization := Organization o; FormTitle := FormTitle o; FormFields := v |}.

(** The body of the reply to [POST /api/forms/create]. *)
Record CreateFormResponse := {
  Success : bool;
  Id : option Z;
  Errors : option (list string);
}.

Definition GetId (o : CreateFormResponse) : Z := default 0%Z (Id o).
Definition GetErrors (o : CreateFormResponse) : list string := default [] (Errors o).

(** What [Execute] hands back: the decoded body, the HTTP response and the
    error, each of which may be nil. *)
Record Executed := {
  createResult : option CreateFormResponse;
  createResponse : option http.Response;
  createErr : option string;
}.

(** The client: the REMS server seen through
    [FormsAPI.ApiFormsCreatePost(ctx).CreateFormCommand(cmd).Execute()]. *)
Record APIClient := {
  ApiFormsCreatePost_Execute : CreateFormCommand → Executed;
}.

End remsclient.

(** What a handler does besides changing its response: REMS requests and
    log lines, in order. *)
Inductive Event :=
| ApiFormsCreatePost (cmd : remsclient.CreateFormCommand)
| Log (level : tflog.Level) (msg : string).

(** The REMS requests of a trace. *)
Definition api_calls (trace : list Event) : list remsclient.CreateFormCommand :=
  omap (λ e, match e with ApiFormsCreatePost cmd => Some cmd | Log _ _ => None end)
       trace.

(** A handler returns, or panics on a nil dereference. *)
Inductive Outcome (R : Type) : Type :=
| Returned (resp : R) (trace : list Event)
| Panicked (trace : list Event).
Global Arguments Returned {R} resp trace.
Global Arguments Panicked {R} trace.

(** ** internal/provider/resources/form_resource.go *)

Module FormFieldResourceModel.
Record t := {
  Id : types.String;
  Type_ : types.String;
  Title : types.Map;
  Info : types.String;
  Placeholder : types.String;
  Optional : types.Bool;
}.

(** The zero value of the Go struct: every attribute null. *)
Definition zero : t :=
  {| Id := attr.ValueNull; Type_ := attr.ValueNull; Title := attr.ValueNull;
     Info := attr.ValueNull; Placeholder := attr.ValueNull;
     Optional := attr.ValueNull |}.
End FormFieldResourceModel.

Module FormResourceModel.
Record t := {
  Id : types.Int64;
  OrganizationId : types.String;
  Title : types.String;
  (** [types.List] of field objects. *)
  Fields : attr.Value (list (attr.Value FormFieldResourceModel.t));
}.

Definition zero : t :=
  {| Id := attr.ValueNull; OrganizationId := attr.ValueNull;
     Title := attr.ValueNull; Fields := attr.ValueNull |}.

(** [resourceModel.Id = v]. *)
Definition set_Id (m : t) (v : types.Int64) : t :=
  {| Id := v; OrganizationId := OrganizationId m; Title := Title m;
     Fields := Fields m |}.
End FormResourceModel.

(** [tfsdk.Plan] and [tfsdk.State] of a form: the raw object, typed by the
    resource schema. *)
Module tfsdk.

Record Plan := { Plan_Raw : attr.Value FormResourceModel.t }.
Record State := { State_Raw : attr.Value FormResourceModel.t }.

(** [Plan.Get(ctx, &target)] with a struct target. *)
Definition Plan_Get (p : Plan) : reflect.Conversion FormResourceModel.t :=
  reflect.to_value (Plan_Raw p).

(** [State.Get(ctx, &target)] with a struct target. *)
Definition State_Get (s : State) : reflect.Conversion FormResourceModel.t :=
  reflect.to_value (State_Raw s).

(** [State.Set(ctx, &val)]: a struct of framework values always converts. *)
Definition State_Set (s : State) (val : FormResourceModel.t)
  : State * diag.Diagnostics :=
  ({| State_Raw := attr.ValueKnown val |}, []).

(** [List.Elements()]. *)
Definition Elements {A} (l : attr.Value (list A)) : list A := attr.value_or [] l.

(** [List.ElementsAs(ctx, &target, false)] with target
    [[]FormFieldResourceModel]. *)
Definition List_ElementsAs (l : attr.Value (list (attr.Value FormFieldResourceModel.t)))
  : reflect.Conversion (list FormFieldResourceModel.t) :=
  reflect.to_slice reflect.to_value l.

(** [Map.ElementsAs(ctx, &target, false)] with target [map[string]string]. *)
Definition Map_ElementsAs (m : types.Map) : reflect.Conversion GoMap :=
  reflect.to_string_map m.

End tfsdk.

Module resource.

Record CreateRequest := { CreateRequest_Plan : tfsdk.Plan }.
Record ReadRequest := { ReadRequest_State : tfsdk.State }.
Record UpdateRequest := { UpdateRequest_Plan : tfsdk.Plan }.
Record DeleteRequest := { DeleteRequest_State : tfsdk.State }.

(** [CreateResponse], [ReadResponse], [UpdateResponse] and [DeleteResponse]
    all carry the state and the diagnostics. *)
Record Response := {
  State : tfsdk.State;
  Diagnostics : diag.Diagnostics;
}.

(** [resp.Diagnostics.Append(ds...)]. *)
Definition Diagnostics_Append (resp : Response) (ds : diag.Diagnostics) : Response :=
  {| State := State resp; Diagnostics := diag.Append (Diagnostics resp) ds |}.

(** [resp.Diagnostics.AddError(summary, detail)]. *)
Definition Diagnostics_AddError (resp : Response) (summary : string)
    (detail : diag.Text) : Response :=
  {| State := State resp;
     Diagnostics := diag.AddError (Diagnostics resp) summary detail |}.

(** [resp.Diagnostics.Append(resp.State.Set(ctx, &val)...)]. *)
Definition State_Set (resp : Response) (val : FormResourceModel.t) : Response :=
  let '(state, ds) := tfsdk.State_Set (State resp) val in
  Diagnostics_Append {| State := state; Diagnostics := Diagnostics resp |} ds.

End resource.

(** FormResource defines the resource implementation; [client] is nil until
    [Configure] has run. *)
Record FormResource := {
  client : option remsclient.APIClient;
}.

(** Lines 235-242 of [Create]: the API field built from a model field and
    its converted title. *)
Definition newField_of (modelFieldValue : FormFieldResourceModel.t)
    (titleMap : GoMap) : remsclient.NewFieldTemplate :=
  let newField :=
    remsclient.NewNewFieldTemplate
      titleMap
      (types.ValueString (FormFieldResourceModel.Type_ modelFieldValue))
      (types.ValueBool (FormFieldResourceModel.Optional modelFieldValue)) in
  if negb (attr.IsNull (FormFieldResourceModel.Id modelFieldValue))
  then remsclient.SetFieldId newField
         (types.ValueString (FormFieldResourceModel.Id modelFieldValue))
  else newField.

(** Lines 226-246 of [Create]: the loop over [modelFields]. [None] is the
    [return] inside the loop. *)
Fixpoint Create_fields (modelFields : list FormFieldResourceModel.t)
    (resp : resource.Response) (newFields : list remsclient.NewFieldTemplate)
  : resource.Response * option (list remsclient.NewFieldTemplate) :=
  match modelFields with
  | [] => (resp, Some newFields)
  | modelFieldValue :: rest =>
      let title := FormFieldResourceModel.Title modelFieldValue in
      if negb (attr.IsNull title) && negb (attr.IsUnknown title) then
        let conv := tfsdk.Map_ElementsAs title in
        let titleMap := reflect.into None conv in
        let resp := resource.Diagnostics_Append resp (reflect.diags conv) in
        if diag.HasError (resource.Diagnostics resp) then (resp, None)
        else
          let newField := newField_of modelFieldValue titleMap in
          Create_fields rest resp (newFields ++ [newField])
      else Create_fields rest resp newFields
  end.

(** Lines 212-222 of [Create]: organisation and title of the command. *)
Definition Create_formConfig (resourceModel : FormResourceModel.t)
  : remsclient.CreateFormCommand :=
  let orgId :=
    remsclient.NewOrganizationId
      (types.ValueString (FormResourceModel.OrganizationId resourceModel)) in
  let formConfig := remsclient.NewCreateFormCommandWithDefaults in
  let formConfig := remsclient.SetOrganization formConfig orgId in
  if attr.IsNull (FormResourceModel.Title resourceModel)
  then remsclient.SetFormTitleNil formConfig
  else remsclient.SetFormTitle formConfig
         (types.ValueString (FormResourceModel.Title resourceModel)).

(** Lines 250-280 of [Create]: the request and what follows it. *)
Definition Create_call (r : FormResource) (resourceModel : FormResourceModel.t)
    (formConfig : remsclient.CreateFormCommand) (resp : resource.Response)
  : Outcome resource.Response :=
  match client r with
  | None => Panicked []
  | Some c =>
      let trace := [ApiFormsCreatePost formConfig] in
      let ex := remsclient.ApiFormsCreatePost_Execute c formConfig in
      match remsclient.createErr ex with
      | Some createErr =>
          Returned
            (resource.Diagnostics_AddError resp "Failure to create form"
               (diag.Sprintf "Could not create form: %s %v"
                  [diag.ArgString createErr;
                   diag.ArgResponse (remsclient.createResponse ex)]))
            trace
      | None =>
          match remsclient.createResult ex with
          | None => Panicked trace
          | Some createResult =>
              if negb (remsclient.Success createResult) then
                Returned
                  (resource.Diagnostics_AddError resp "Failure to create form"
                     (diag.Sprintf "Could not create form: %v"
                        [diag.ArgErrors (remsclient.GetErrors createResult)]))
                  trace
              else
                match remsclient.createResponse ex with
                | None => Panicked trace
                | Some createResponse =>
                    let trace := trace ++ [Log tflog.Info (http.Status createResponse)] in
                    let resourceModel :=
                      FormResourceModel.set_Id resourceModel
                        (types.Int64Value (remsclient.GetId createResult)) in
                    let trace := trace ++ [Log tflog.Trace "created a resource"] in
                    Returned (resource.State_Set resp resourceModel) trace
                end
          end
      end
  end.

(** [FormResource.Create]. *)
Definition Create (r : FormResource) (req : resource.CreateRequest)
    (resp : resource.Response) : Outcome resource.Response :=
  let planConv := tfsdk.Plan_Get (resource.CreateRequest_Plan req) in
  let resourceModel := reflect.into FormResourceModel.zero planConv in
  let resp := resource.Diagnostics_Append resp (reflect.diags planConv) in
  if diag.HasError (resource.Diagnostics resp) then Returned resp [] else
  let fieldsConv := tfsdk.List_ElementsAs (FormResourceModel.Fields resourceModel) in
  let modelFields :=
    reflect.into
      (replicate (length (tfsdk.Elements (FormResourceModel.Fields resourceModel)))
         FormFieldResourceModel.zero)
      fieldsConv in
  let modelFieldDiagnostics := reflect.diags fieldsConv in
  let resp :=
    if bool_decide (0 < length modelFieldDiagnostics)
    then resource.Diagnostics_Append resp modelFieldDiagnostics
    else resp in
  if diag.HasError (resource.Diagnostics resp) then Returned resp [] else
  let formConfig := Create_formConfig resourceModel in
  match Create_fields modelFields resp [] with
  | (resp, None) => Returned resp []
  | (resp, Some newFields) =>
      let formConfig := remsclient.SetFormFields formConfig newFields in
      Create_call r resourceModel formConfig resp
  end.

(** [FormResource.Read]. *)
Definition Read (r : FormResource) (req : resource.ReadRequest)
    (resp : resource.Response) : Outcome resource.Response :=
  let conv := tfsdk.State_Get (resource.ReadRequest_State req) in
  let data := reflect.into FormResourceModel.zero conv in
  let resp := resource.Diagnostics_Append resp (reflect.diags conv) in
  if diag.HasError (resource.Diagnostics resp) then Returned resp [] else
  Returned (resource.State_Set resp data) [].

(** [FormResource.Update]. *)
Definition Update (r : FormResource) (req : resource.UpdateRequest)
    (resp : resource.Response) : Outcome resource.Response :=
  let conv := tfsdk.Plan_Get (resource.UpdateRequest_Plan req) in
  let data := reflect.into FormResourceModel.zero conv in
  let resp := resource.Diagnostics_Append resp (reflect.diags conv) in
  if diag.HasError (resource.Diagnostics resp) then Returned resp [] else
  Returned (resource.State_Set resp data) [].

(** [FormResource.Delete]. *)
Definition Delete (r : FormResource) (req : resource.DeleteRequest)
    (resp : resource.Response) : Outcome resource.Response :=
  let conv := tfsdk.State_Get (resource.DeleteRequest_State req) in
  let resp := resource.Diagnostics_Append resp (reflect.diags conv) in
  if diag.HasError (resource.Diagnostics resp) then Returned resp [] else
  Returned resp [].

(** ** Terraform plugin framework: provider functions *)

Module function.

Record FuncError := {
  Text : string;
  FunctionArgument : option Z;
}.

Definition NewFuncError (text : string) : FuncError :=
  {| Text := text; FunctionArgument := None |}.

(** The loop of [ConcatFuncErrors]: nil errors are skipped, texts are joined
    by a newline, the first argument position set is kept. *)
Fixpoint concat_loop (funcErrs : list (option FuncError)) (text : string)
    (functionArgument : option Z) : string * option Z :=
  match funcErrs with
  | [] => (text, functionArgument)
  | None :: rest => concat_loop rest text functionArgument
  | Some f :: rest =>
      let text :=
        if negb (bool_decide (text = "")) && negb (bool_decide (Text f = ""))
        then text +:+ String.String "010"%char ""
        else text in
      let text := text +:+ Text f in
      let functionArgument :=
        match functionArgument with
        | None => FunctionArgument f
        | Some _ => functionArgument
        end in
      concat_loop rest text functionArgument
  end.

(** [ConcatFuncErrors]. *)
Definition ConcatFuncErrors (funcErrs : list (option FuncError)) : option FuncError :=
  let '(text, functionArgument) := concat_loop funcErrs "" None in
  if negb (bool_decide (text = "")) || bool_decide (is_Some functionArgument)
  then Some {| Text := text; FunctionArgument := functionArgument |}
  else None.

(** [FuncErrorFromDiags] on the diagnostics of one conversion: the error
    diagnostic becomes ["summary: detail"]. *)
Definition FuncErrorFromConversion {A} (c : reflect.Conversion A) : option FuncError :=
  match c with
  | reflect.Converted _ => None
  | reflect.Failed why =>
      ConcatFuncErrors
        [None;
         Some (NewFuncError ("Value Conversion Error: " +:+ reflect.error_text why))]
  end.

(** [req.Arguments.Get(ctx, &t1, ..., &tn)]: every argument is converted,
    the errors are concatenated. The arguments arrive typed by the
    function's definition, one per target. *)
Definition Arguments_Get (convs : list (option FuncError)) : option FuncError :=
  foldl (λ funcErr e, ConcatFuncErrors [funcErr; e]) None convs.

End function.

(** ** internal/provider/functions/form_field_header_function.go *)

Module FormFieldHeaderFunction.

(** The receiver: an empty struct. *)
Record t := {}.

Definition Name : string := "form_field_header".

(** [Parameters]: a string [field_id] and a map of strings [title]. *)
Record RunRequest := {
  Arguments : types.String * types.Map;
}.

(** The object of [Return.AttributeTypes]. *)
Record Object := {
  id : types.String;
  title : types.Map;
  type_ : types.String;
  optional : types.Bool;
}.

Record RunResponse := {
  Error : option function.FuncError;
  Result : attr.Value Object;
}.

(** The anonymous struct [result] of [Run]. *)
Record result_t := {
  Id : string;
  Title : GoMap;
  Type_ : string;
  Optional : bool;
}.

(** [resp.Result.Set(ctx, result)]: strings and bools become known values,
    a nil map a null map. *)
Definition Result_Set (d : attr.Value Object) (value : result_t)
  : attr.Value Object * option function.FuncError :=
  (attr.ValueKnown
     {| id := types.StringValue (Id value);
        title :=
          match Title value with
          | None => attr.ValueNull
          | Some m => attr.ValueKnown (types.StringValue <$> m)
          end;
        type_ := types.StringValue (Type_ value);
        optional := types.BoolValue (Optional value) |},
   None).

(** [FormFieldHeaderFunction.Run]. *)
Definition Run (r : t) (req : RunRequest) (resp : RunResponse)
  : RunResponse * list Event :=
  let idConv := reflect.to_value (Arguments req).1 in
  let titleConv := reflect.to_string_map (Arguments req).2 in
  let idData := reflect.into "" idConv in
  let titleData := reflect.into None titleConv in
  let resp :=
    {| Error :=
         function.ConcatFuncErrors
           [function.Arguments_Get
              [function.FuncErrorFromConversion idConv;
               function.FuncErrorFromConversion titleConv]];
       Result := Result resp |} in
  if bool_decide (is_Some (Error resp)) then (resp, []) else
  let result :=
    {| Id := idData;
       Title := titleData;
       Type_ := "header";
       Optional := false (* not set in the literal: the zero value *) |} in
  let '(value, setErr) := Result_Set (Result resp) result in
  ({| Error := function.ConcatFuncErrors [setErr]; Result := value |}, []).

End FormFieldHeaderFunction.

(** ** Package functions: FormFieldLabelFunction *)

Module FormFieldLabelFunction.

Record t := {}.

Definition Name : string := "form_field_label".

(** [Parameters]: a string [title]. *)
Record RunRequest := {
  Arguments : types.String;
}.

Record Object := {
  title : types.String;
  type_ : types.String;
  optional : types.Bool;
}.

Record RunResponse := {
  Error : option function.FuncError;
  Result : attr.Value Object;
}.

Record result_t := {
  Title : string;
  Type_ : string;
  Optional : bool;
}.

Definition Result_Set (d : attr.Value Object) (value : result_t)
  : attr.Value Object * option function.FuncError :=
  (attr.ValueKnown
     {| title := types.StringValue (Title value);
        type_ := types.StringValue (Type_ value);
        optional := types.BoolValue (Optional value) |},
   None).

(** [FormFieldLabelFunction.Run]. *)
Definition Run (r : t) (req : RunRequest) (resp : RunResponse)
  : RunResponse * list Event :=
  let conv := reflect.to_value (Arguments req) in
  let functionData := reflect.into "" conv in
  let resp :=
    {| Error :=
         function.ConcatFuncErrors
           [function.Arguments_Get [function.FuncErrorFromConversion conv]];
       Result := Result resp |} in
  if bool_decide (is_Some (Error resp)) then (resp, []) else
  let result :=
    {| Title := functionData;
       Type_ := "label";
       Optional := false (* not set in the literal: the zero value *) |} in
  let '(value, setErr) := Result_Set (Result resp) result in
  ({| Error := function.ConcatFuncErrors [setErr]; Result := value |}, []).

End FormFieldLabelFunction.

(** ** Package provider: RemsContentProvider *)

(** The REMS content objects the provider is meant to manage. *)
Inductive ContentObject :=
| Forms | Categories | Licenses | Workflows | CatalogueItems | Resources_.

Global Instance ContentObject_eq_dec : EqDecision ContentObject.
Proof. solve_decision. Defined.

Module resources.

(** The constructors of package [resources] that the provider lists. *)
Inductive Constructor :=
| NewCatalogueItemResource
| NewCategoryResource
| NewFormResource
| NewLicenseResource
| NewResourceResource
| NewWorkflowResource.

Global Instance Constructor_eq_dec : EqDecision Constructor.
Proof. solve_decision. Defined.

(** Modelled from the spec: of the six constructors only [NewFormResource]
    is among the sources; each is taken to build the resource of the content
    object it is named after. *)
Definition manages (c : Constructor) : ContentObject :=
  match c with
  | NewCatalogueItemResource => CatalogueItems
  | NewCategoryResource => Categories
  | NewFormResource => Forms
  | NewLicenseResource => Licenses
  | NewResourceResource => Resources_
  | NewWorkflowResource => Workflows
  end.

End resources.

Module functions.
Inductive Constructor :=
| NewFormFieldHeaderFunction
| NewFormFieldLabelFunction.
End functions.

(** [RemsContentProvider.Resources]. *)
Definition Resources : list resources.Constructor :=
  [ resources.NewCatalogueItemResource;
    resources.NewCategoryResource;
    resources.NewFormResource;
    resources.NewLicenseResource;
    resources.NewResourceResource;
    resources.NewWorkflowResource ].

(** [RemsContentProvider.Functions]. *)
Definition Functions : list functions.Constructor :=
  [ functions.NewFormFieldHeaderFunction;
    functions.NewFormFieldLabelFunction ].

(** ** FormResource: NewFormResource and Configure *)

(** [NewFormResource]: a resource without a client. *)
Definition NewFormResource : FormResource := {| client := None |}.

(** A Go [any] as [Configure] looks at it: a [*remsclient.APIClient]
    (possibly the nil pointer), or a value of another type, of which only the
    name of the type is used. *)
Inductive any :=
| APIClientPtr (c : option remsclient.APIClient)
| OtherType (typeName : string).

(** [resource.ConfigureRequest]; [ProviderData] is nil until the provider
    has been configured. *)
Record ConfigureRequest := { ProviderData : option any }.

(** [resource.ConfigureResponse]. *)
Record ConfigureResponse := { Configure_Diagnostics : diag.Diagnostics }.

(** [FormResource.Configure]: the resource after the call, and the
    response. *)
Definition Configure (r : FormResource) (req : ConfigureRequest)
    (resp : ConfigureResponse) : FormResource * ConfigureResponse :=
  match ProviderData req with
  | None => (r, resp)
  | Some (APIClientPtr client) => ({| client := client |}, resp)
  | Some (OtherType typeName) =>
      (r,
       {| Configure_Diagnostics :=
            diag.AddError (Configure_Diagnostics resp)
              "Unexpected Resource Configure Type"
              (diag.Sprintf
                 "Expected *remsclient.APIClient, got: %T. Please report this issue to the provider developers."
                 [diag.ArgString typeName]) |})
  end.

(** ** The schema tables *)

Module schema.

(** The attribute types the provider uses. *)
Inductive Type_ :=
| StringType
| BoolType
| Int64Type
| MapType (ElemType : Type_).

Global Instance Type_eq_dec : EqDecision Type_.
Proof. solve_decision. Defined.

Inductive Presence := Required | Optional.

Global Instance Presence_eq_dec : EqDecision Presence.
Proof. solve_decision. Defined.

End schema.

(** [fieldSchema]: the attributes of one element of [fields]. *)
Definition fieldSchema : gmap string (schema.Type_ * schema.Presence) :=
  <["id" := (schema.StringType, schema.Optional)]>
  (<["type" := (schema.StringType, schema.Required)]>
  (<["title" := (schema.MapType schema.StringType, schema.Optional)]>
  (<["info" := (schema.StringType, schema.Optional)]>
  (<["placeholder" := (schema.StringType, schema.Optional)]>
  (<["optional" := (schema.BoolType, schema.Optional)]> ∅))))).

(** [FormFieldHeaderFunction.Definition]: the attribute types of the
    returned object. *)
Definition header_Return : gmap string schema.Type_ :=
  <["id" := schema.StringType]>
  (<["title" := schema.MapType schema.StringType]>
  (<["type" := schema.StringType]>
  (<["optional" := schema.BoolType]> ∅))).

(** [FormFieldLabelFunction.Definition]: the attribute types of the
    returned object. *)
Definition label_Return : gmap string schema.Type_ :=
  <["title" := schema.StringType]>
  (<["type" := schema.StringType]>
  (<["optional" := schema.BoolType]> ∅)).

(** ** Package provider: New and Configure *)

(** Modelled from the spec: [remsclient.Configuration] belongs to the
    generated client, which is not among the sources; of its fields only
    those [Configure] assigns are kept ([HTTPClient] is set to a client
    without transport and carries nothing). *)
Record Configuration := {
  Host : string;
  Scheme : string;
  DefaultHeader : gmap string string;
}.

(** Modelled from the spec: [remsclient.NewConfiguration()], with the
    assigned fields at their zero values. *)
Definition NewConfiguration : Configuration :=
  {| Host := ""; Scheme := ""; DefaultHeader := ∅ |}.

(** Modelled from the spec: [remsclient.NewAPIClient(cfg)]. The client sends
    its requests over [network], the REMS servers as reached under a
    configuration. *)
Definition NewAPIClient
    (network : Configuration → remsclient.CreateFormCommand → remsclient.Executed)
    (cfg : Configuration) : remsclient.APIClient :=
  {| remsclient.ApiFormsCreatePost_Execute := network cfg |}.

Module RemsContentProvider.

Record t := { version : string }.

(** [RemsContentProviderModel]. *)
Record Model := {
  Endpoint : types.String;
  ApiUser : types.String;
  ApiKey : types.String;
}.

Definition Model_zero : Model :=
  {| Endpoint := attr.ValueNull; ApiUser := attr.ValueNull;
     ApiKey := attr.ValueNull |}.

(** [provider.ConfigureRequest]: the configuration object. *)
Record ConfigureRequest := { Config : attr.Value Model }.

Record ConfigureResponse := {
  DataSourceData : option any;
  ResourceData : option any;
  Diagnostics : diag.Diagnostics;
}.

(** [New(version)()]. *)
Definition New (version : string) : t := {| version := version |}.

Section network.
Variable network :
  Configuration → remsclient.CreateFormCommand → remsclient.Executed.

(** [RemsContentProvider.Configure]. *)
Definition Configure (p : t) (req : ConfigureRequest) (resp : ConfigureResponse)
  : ConfigureResponse :=
  let conv := reflect.to_value (Config req) in
  let data := reflect.into Model_zero conv in
  let resp :=
    {| DataSourceData := DataSourceData resp; ResourceData := ResourceData resp;
       Diagnostics := diag.Append (Diagnostics resp) (reflect.diags conv) |} in
  if diag.HasError (Diagnostics resp) then resp else
  let cfg := NewConfiguration in
  let cfg :=
    {| Host := types.ValueString (Endpoint data); Scheme := Scheme cfg;
       DefaultHeader := DefaultHeader cfg |} in
  let cfg :=
    {| Host := Host cfg; Scheme := "https"; DefaultHeader := DefaultHeader cfg |} in
  let cfg :=
    {| Host := Host cfg; Scheme := Scheme cfg;
       DefaultHeader :=
         <["x-rems-user-id" := types.ValueString (ApiUser data)]>
         (<["x-rems-api-key" := types.ValueString (ApiKey data)]>
         (<["Content-Type" := "application/json"]> ∅)) |} in
  let client := NewAPIClient network cfg in
  {| DataSourceData := Some (APIClientPtr (Some client));
     ResourceData := Some (APIClientPtr (Some client));
     Diagnostics := Diagnostics resp |}.

End network.

End RemsContentProvider.

(** * Vocabulary of the properties *)

(** The elements of a title map are all known strings. *)
Definition known_strings (elems : gmap string types.String) : Prop :=
  map_Forall (λ _ v, attr.IsNull v = false ∧ attr.IsUnknown v = false) elems.

Global Instance known_strings_dec elems : Decision (known_strings elems).
Proof. unfold known_strings. apply _. Defined.

(** A planned field whose title is neither null nor unknown. *)
Definition title_known (f : FormFieldResourceModel.t) : Prop :=
  attr.IsNull (FormFieldResourceModel.Title f) = false ∧
  attr.IsUnknown (FormFieldResourceModel.Title f) = false.

Global Instance title_known_dec f : Decision (title_known f).
Proof. unfold title_known. apply _. Defined.

(** The strings of a field's title. *)
Definition title_strings (f : FormFieldResourceModel.t) : GoMap :=
  match FormFieldResourceModel.Title f with
  | attr.ValueKnown elems => Some (types.ValueString <$> elems)
  | _ => None
  end.

(** The API field sent for a planned field. *)
Definition sent_field (f : FormFieldResourceModel.t) : remsclient.NewFieldTemplate :=
  newField_of f (title_strings f).

(** The fields of a plan: none when the list is null, else its objects,
    all known. *)
Definition planned_fields (m : FormResourceModel.t)
    (fs : list FormFieldResourceModel.t) : Prop :=
  (FormResourceModel.Fields m = attr.ValueNull ∧ fs = []) ∨
  FormResourceModel.Fields m = attr.ValueKnown (attr.ValueKnown <$> fs).

(** Every known title holds known strings only. *)
Definition titles_convert (fs : list FormFieldResourceModel.t) : Prop :=
  Forall (λ f, ∀ elems, FormFieldResourceModel.Title f = attr.ValueKnown elems →
               known_strings elems) fs.

(** No error diagnostic arises before the request: none is there on entry,
    the plan is a known object, its fields are [fs], their titles convert. *)
Definition clean_plan (req : resource.CreateRequest) (resp : resource.Response)
    (m : FormResourceModel.t) (fs : list FormFieldResourceModel.t) : Prop :=
  diag.HasError (resource.Diagnostics resp) = false ∧
  tfsdk.Plan_Raw (resource.CreateRequest_Plan req) = attr.ValueKnown m ∧
  planned_fields m fs ∧
  titles_convert fs.

(** The trace of an outcome, and its response when it returned. *)
Definition trace_of {R} (o : Outcome R) : list Event :=
  match o with Returned _ trace => trace | Panicked trace => trace end.

(** The command [Create] builds from a plan and its fields. *)
Definition command_of (m : FormResourceModel.t)
    (fs : list FormFieldResourceModel.t) : remsclient.CreateFormCommand :=
  remsclient.SetFormFields (Create_formConfig m)
    (sent_field <$> filter title_known fs).

(** The reply to the request was an error, or a body without success. *)
Definition create_failed (ex : remsclient.Executed) : Prop :=
  is_Some (remsclient.createErr ex) ∨
  ∃ res, remsclient.createResult ex = Some res ∧ remsclient.Success res = false.

Definition field_applicant : FormFieldResourceModel.t :=
  {| FormFieldResourceModel.Id := attr.ValueKnown "xyz_applicant";
     FormFieldResourceModel.Type_ := attr.ValueKnown "header";
     FormFieldResourceModel.Title :=
       attr.ValueKnown {[ "en" := attr.ValueKnown "Applicant" ]};
     FormFieldResourceModel.Info := attr.ValueNull;
     FormFieldResourceModel.Placeholder := attr.ValueNull;
     FormFieldResourceModel.Optional := attr.ValueNull |}.

(** A field given without a title. *)
Definition field_untitled : FormFieldResourceModel.t :=
  {| FormFieldResourceModel.Id := attr.ValueNull;
     FormFieldResourceModel.Type_ := attr.ValueKnown "label";
     FormFieldResourceModel.Title := attr.ValueNull;
     FormFieldResourceModel.Info := attr.ValueNull;
     FormFieldResourceModel.Placeholder := attr.ValueNull;
     FormFieldResourceModel.Optional := attr.ValueNull |}.

(** A field written [title = { en = null }]. *)
Definition field_null_text : FormFieldResourceModel.t :=
  {| FormFieldResourceModel.Id := attr.ValueKnown "xyz_purpose";
     FormFieldResourceModel.Type_ := attr.ValueKnown "header";
     FormFieldResourceModel.Title := attr.ValueKnown {[ "en" := attr.ValueNull ]};
     FormFieldResourceModel.Info := attr.ValueNull;
     FormFieldResourceModel.Placeholder := attr.ValueNull;
     FormFieldResourceModel.Optional := attr.ValueNull |}.

Definition form_model (fs : list FormFieldResourceModel.t) : FormResourceModel.t :=
  {| FormResourceModel.Id := attr.ValueUnknown;
     FormResourceModel.OrganizationId := attr.ValueKnown "Our Organisation";
     FormResourceModel.Title := attr.ValueKnown "Access to XYZ data";
     FormResourceModel.Fields := attr.ValueKnown (attr.ValueKnown <$> fs) |}.

Definition form_plan (fs : list FormFieldResourceModel.t) : resource.CreateRequest :=
  {| resource.CreateRequest_Plan :=
       {| tfsdk.Plan_Raw := attr.ValueKnown (form_model fs) |} |}.

(** The response as the framework hands it to a handler. *)
Definition fresh_response : resource.Response :=
  {| resource.State := {| tfsdk.State_Raw := attr.ValueNull |};
     resource.Diagnostics := [] |}.

Definition http_ok : http.Response :=
  {| http.Status := "200 OK"; http.StatusCode := 200 |}.

(** A server that creates every form as number 7. *)
Definition rems_accepting : remsclient.APIClient :=
  {| remsclient.ApiFormsCreatePost_Execute := λ _,
       {| remsclient.createResult :=
            Some {| remsclient.Success := true; remsclient.Id := Some 7%Z;
                    remsclient.Errors := None |};
          remsclient.createResponse := Some http_ok;
          remsclient.createErr := None |} |}.

(** A server that answers every request with [success: false]. *)
Definition rems_rejecting : remsclient.APIClient :=
  {| remsclient.ApiFormsCreatePost_Execute := λ _,
       {| remsclient.createResult :=
            Some {| remsclient.Success := false; remsclient.Id := None;
                    remsclient.Errors := Some ["t.form.validation/required"] |};
          remsclient.createResponse := Some http_ok;
          remsclient.createErr := None |} |}.

(** No server: the request itself fails. *)
Definition rems_unreachable : remsclient.APIClient :=
  {| remsclient.ApiFormsCreatePost_Execute := λ _,
       {| remsclient.createResult := None;
          remsclient.createResponse := None;
          remsclient.createErr := Some "connection refused" |} |}.

Definition configured (c : remsclient.APIClient) : FormResource :=
  {| client := Some c |}.

Definition header_request (field_id : string) (title : gmap string string)
  : FormFieldHeaderFunction.RunRequest :=
  {| FormFieldHeaderFunction.Arguments :=
       (types.StringValue field_id,
        attr.ValueKnown (types.StringValue <$> title)) |}.

Definition label_request (title : string) : FormFieldLabelFunction.RunRequest :=
  {| FormFieldLabelFunction.Arguments := types.StringValue title |}.

(** The response as the framework hands it to [Run]: no error, an unknown
    result. *)
Definition header_fresh : FormFieldHeaderFunction.RunResponse :=
  {| FormFieldHeaderFunction.Error := None;
     FormFieldHeaderFunction.Result := attr.ValueUnknown |}.

Definition label_fresh : FormFieldLabelFunction.RunResponse :=
  {| FormFieldLabelFunction.Error := None;
     FormFieldLabelFunction.Result := attr.ValueUnknown |}.

(** ** Vocabulary of the further properties *)

(** Diagnostics that are those before, or those followed by one error. *)
Definition grown (ds ds' : diag.Diagnostics) : Prop :=
  ds' = ds ∨ ∃ d, diag.is_error d = true ∧ ds' = ds ++ [d].

(** A reply [Create] can use: when it carries no error it carries a body,
    and with a successful body the HTTP response. *)
Definition usable_reply (ex : remsclient.Executed) : Prop :=
  remsclient.createErr ex = None →
  ∃ res, remsclient.createResult ex = Some res ∧
         (remsclient.Success res = true → is_Some (remsclient.createResponse ex)).

(** The plan that decodes to a model. *)
Definition plan_of (m : FormResourceModel.t) : resource.CreateRequest :=
  {| resource.CreateRequest_Plan := {| tfsdk.Plan_Raw := attr.ValueKnown m |} |}.

(** Two planned fields that agree on id, type, title and optional. *)
Definition same_for_REMS (f g : FormFieldResourceModel.t) : Prop :=
  FormFieldResourceModel.Id f = FormFieldResourceModel.Id g ∧
  FormFieldResourceModel.Type_ f = FormFieldResourceModel.Type_ g ∧
  FormFieldResourceModel.Title f = FormFieldResourceModel.Title g ∧
  FormFieldResourceModel.Optional f = FormFieldResourceModel.Optional g.

(** The element of [fields] an object returned by [form_field_header]
    becomes: the attributes the object lacks, [info] and [placeholder], are
    null (the README builds [fields] this way). *)
Definition field_of_header (o : FormFieldHeaderFunction.Object)
  : FormFieldResourceModel.t :=
  {| FormFieldResourceModel.Id := FormFieldHeaderFunction.id o;
     FormFieldResourceModel.Type_ := FormFieldHeaderFunction.type_ o;
     FormFieldResourceModel.Title := FormFieldHeaderFunction.title o;
     FormFieldResourceModel.Info := attr.ValueNull;
     FormFieldResourceModel.Placeholder := attr.ValueNull;
     FormFieldResourceModel.Optional := FormFieldHeaderFunction.optional o |}.

(** [fields = [form_field_header(id, title), ...]]: the field each call
    yields. *)
Definition header_field (a : string * gmap string string)
  : FormFieldResourceModel.t :=
  match FormFieldHeaderFunction.Result
          (FormFieldHeaderFunction.Run FormFieldHeaderFunction.Build_t
             (header_request a.1 a.2) header_fresh).1 with
  | attr.ValueKnown o => field_of_header o
  | _ => FormFieldResourceModel.zero
  end.

(** An object type fits a nested schema when each of its attributes is one
    of the schema, with the same type, and no required attribute of the
    schema is missing. *)
Definition fits (ret : gmap string schema.Type_)
    (sch : gmap string (schema.Type_ * schema.Presence)) : Prop :=
  map_Forall (λ k ty, fst <$> sch !! k = Some ty) ret ∧
  map_Forall (λ k a, a.2 = schema.Required → is_Some (ret !! k)) sch.

Global Instance fits_dec ret sch : Decision (fits ret sch).
Proof. unfold fits. apply _. Defined.


Definition provider_fresh : RemsContentProvider.ConfigureResponse :=
  {| RemsContentProvider.DataSourceData := None;
     RemsContentProvider.ResourceData := None;
     RemsContentProvider.Diagnostics := [] |}.

(** A network on which every request is answered as by [rems_accepting]. *)
Definition network_accepting (cfg : Configuration)
  : remsclient.CreateFormCommand → remsclient.Executed :=
  remsclient.ApiFormsCreatePost_Execute rems_accepting.

(** [field_applicant] with an info text and a placeholder, in a form that
    already has an id. *)
Definition field_applicant_described : FormFieldResourceModel.t :=
  {| FormFieldResourceModel.Id := attr.ValueKnown "xyz_applicant";
     FormFieldResourceModel.Type_ := attr.ValueKnown "header";
     FormFieldResourceModel.Title :=
       attr.ValueKnown {[ "en" := attr.ValueKnown "Applicant" ]};
     FormFieldResourceModel.Info := attr.ValueKnown "Who applies";
     FormFieldResourceModel.Placeholder := attr.ValueKnown "Name";
     FormFieldResourceModel.Optional := attr.ValueNull |}.

Definition form_model_described : FormResourceModel.t :=
  {| FormResourceModel.Id := attr.ValueKnown 12%Z;
     FormResourceModel.OrganizationId := attr.ValueKnown "Our Organisation";
     FormResourceModel.Title := attr.ValueKnown "Access to XYZ data";
     FormResourceModel.Fields :=
       attr.ValueKnown (attr.ValueKnown <$> [field_applicant_described]) |}.

(** A client whose replies carry neither error nor body. *)
Definition rems_silent : remsclient.APIClient :=
  {| remsclient.ApiFormsCreatePost_Execute := λ _,
       {| remsclient.createResult := None;
          remsclient.createResponse := None;
          remsclient.createErr := None |} |}.

(** * Properties *)

(** ** Diagnostics *)

Section diagnostics.
Implicit Types (ds : diag.Diagnostics) (d : diag.Diagnostic).

Lemma HasError_false_Forall ds :
  diag.HasError ds = false ↔ Forall (λ d, diag.is_error d = false) ds.
Proof.
  unfold diag.HasError. induction ds as [|d ds IH]; simpl.
  - split; [constructor | done].
  - rewrite orb_false_iff, IH. split.
    + intros [??]. by constructor.
    + by inversion 1.
Qed.

Lemma HasError_app ds1 ds2 :
  diag.HasError (ds1 ++ ds2) = diag.HasError ds1 || diag.HasError ds2.
Proof. unfold diag.HasError. apply existsb_app. Qed.

(** An error diagnostic is new to diagnostics that hold no error, so
    [Append] does add it. *)
Lemma Append_error_fresh ds d :
  diag.HasError ds = false → diag.is_error d = true →
  diag.Append ds [d] = ds ++ [d].
Proof.
  intros Hds Hd. simpl. unfold diag.Contains.
  rewrite bool_decide_eq_false_2; [done|].
  intros Hin. apply HasError_false_Forall in Hds.
  rewrite Forall_forall in Hds. specialize (Hds d Hin). congruence.
Qed.

Lemma AddError_fresh ds summary detail :
  diag.HasError ds = false →
  diag.AddError ds summary detail = ds ++ [diag.NewErrorDiagnostic summary detail].
Proof. intros. by apply Append_error_fresh. Qed.

(** Whether added or already there, an appended error is an error of the
    result. *)
Lemma HasError_Append_error ds d :
  diag.is_error d = true → diag.HasError (diag.Append ds [d]) = true.
Proof.
  intros Hd. simpl. unfold diag.Contains. case_bool_decide as Hin.
  - unfold diag.HasError. apply existsb_exists. exists d.
    split; [by apply list_elem_of_In | done].
  - rewrite HasError_app. simpl. by rewrite Hd, orb_true_r.
Qed.

Lemma HasError_diags_Failed {A} why ds :
  diag.HasError (diag.Append ds (reflect.diags (@reflect.Failed A why))) = true.
Proof. by apply HasError_Append_error. Qed.

End diagnostics.

(** ** Conversions *)

Section conversions.
Context {A B : Type}.
Implicit Types (f : A → reflect.Conversion B).

Lemma to_list_Converted f l bs :
  reflect.to_list f l = reflect.Converted bs ↔
  Forall2 (λ a b, f a = reflect.Converted b) l bs.
Proof.
  revert bs. induction l as [|a l IH]; intros bs; simpl.
  - split.
    + intros [= <-]. constructor.
    + by inversion 1.
  - destruct (f a) as [b|why] eqn:Hfa.
    + destruct (reflect.to_list f l) as [bs'|why] eqn:Hl.
      * split.
        -- intros [= <-]. constructor; [done|]. by apply IH.
        -- inversion 1 as [|? b' ? bs'' Hb Hrest]; subst.
           apply IH in Hrest. congruence.
      * split; [done|].
        inversion 1 as [|? b' ? bs'' Hb Hrest]; subst.
        apply IH in Hrest. congruence.
    + split; [done|]. inversion 1; congruence.
Qed.

Lemma to_list_Failed f l why :
  reflect.to_list f l = reflect.Failed why →
  Exists (λ a, ∃ w, f a = reflect.Failed w) l.
Proof.
  revert why. induction l as [|a l IH]; intros why; simpl; [done|].
  destruct (f a) as [b|w] eqn:Hfa.
  - destruct (reflect.to_list f l) as [|why'] eqn:Hl; [done|].
    intros _. apply Exists_cons_tl. by apply (IH why').
  - intros _. apply Exists_cons_hd. eauto.
Qed.

End conversions.

Lemma to_value_Converted {A} (v : attr.Value A) a :
  reflect.to_value v = reflect.Converted a ↔ v = attr.ValueKnown a.
Proof. destruct v; simpl; split; congruence. Qed.

(** A list of objects converts to structs exactly when every object is
    known. *)
Lemma to_list_to_value {A} (l : list (attr.Value A)) fs :
  reflect.to_list reflect.to_value l = reflect.Converted fs ↔
  l = attr.ValueKnown <$> fs.
Proof.
  rewrite to_list_Converted. split.
  - induction 1 as [|v a l fs Hv _ IH]; [done|].
    apply to_value_Converted in Hv. by rewrite fmap_cons, Hv, IH.
  - intros ->. induction fs; constructor; done.
Qed.

Lemma known_strings_fmap (m : gmap string string) :
  known_strings (types.StringValue <$> m).
Proof.
  unfold known_strings. apply map_Forall_fmap.
  by apply map_Forall_lookup.
Qed.

Lemma ValueString_StringValue (m : gmap string string) :
  types.ValueString <$> (types.StringValue <$> m) = m.
Proof.
  rewrite <- map_fmap_compose. apply map_eq. intros k.
  rewrite lookup_fmap. by destruct (m !! k).
Qed.

(** A known title map converts exactly when its elements are known
    strings, and then to the strings it holds. *)
Lemma to_string_map_Known elems :
  (known_strings elems ∧
   reflect.to_string_map (attr.ValueKnown elems) =
     reflect.Converted (Some (types.ValueString <$> elems))) ∨
  (¬ known_strings elems ∧
   ∃ why, reflect.to_string_map (attr.ValueKnown elems) = reflect.Failed why).
Proof.
  unfold reflect.to_string_map, known_strings.
  destruct (reflect.to_list _ (map_to_list elems)) as [bs|why] eqn:Hl.
  - left. split; [|done].
    apply to_list_Converted in Hl.
    apply map_Forall_to_list, Forall_forall. intros [k v] Hin.
    apply list_elem_of_lookup in Hin as [i Hi].
    destruct (Forall2_lookup_l _ _ _ _ _ Hl Hi) as (b & _ & Hb).
    simpl in *. by destruct v.
  - right. split; [|eauto].
    intros Hall. apply to_list_Failed in Hl.
    apply Exists_exists in Hl as ([k v] & Hin & w & Hw).
    apply map_Forall_to_list in Hall. rewrite Forall_forall in Hall.
    specialize (Hall _ Hin) as [??]. simpl in *. by destruct v.
Qed.

(** ** FormResource.Create *)

Local Arguments reflect.to_string_map : simpl never.
Local Arguments diag.Append : simpl never.

Lemma Diagnostics_Append_nil resp : resource.Diagnostics_Append resp [] = resp.
Proof. by destruct resp. Qed.

Lemma planned_fields_inj m fs1 fs2 :
  planned_fields m fs1 → planned_fields m fs2 → fs1 = fs2.
Proof.
  intros [[H1 ->]|H1] [[H2 ->]|H2]; try congruence.
  rewrite H1 in H2. injection H2 as H2. clear H1.
  revert fs2 H2. induction fs1 as [|f fs1 IH]; intros [|g fs2] H; try done.
  rewrite !fmap_cons in H. injection H as -> H. f_equal. by apply IH.
Qed.

Lemma Append_nil (ds : diag.Diagnostics) : diag.Append ds [] = ds.
Proof. done. Qed.

Lemma sent_field_Known f elems :
  FormFieldResourceModel.Title f = attr.ValueKnown elems →
  sent_field f = newField_of f (Some (types.ValueString <$> elems)).
Proof. unfold sent_field, title_strings. by intros ->. Qed.

(** The loop, when every title converts: the response is untouched and the
    fields with a known title are appended in order. *)
Lemma Create_fields_clean fs resp acc :
  diag.HasError (resource.Diagnostics resp) = false →
  titles_convert fs →
  Create_fields fs resp acc =
    (resp, Some (acc ++ (sent_field <$> filter title_known fs))).
Proof.
  intros Hresp. revert acc.
  induction fs as [|f fs IH]; intros acc Hconv.
  - simpl. by rewrite app_nil_r.
  - apply Forall_cons in Hconv as [Hf Hfs].
    cbn [Create_fields]. unfold tfsdk.Map_ElementsAs.
    destruct (FormFieldResourceModel.Title f) as [| |elems] eqn:Htitle.
    + rewrite filter_cons_False
        by (unfold title_known; rewrite Htitle; by intros [??]).
      by apply IH.
    + rewrite filter_cons_False
        by (unfold title_known; rewrite Htitle; by intros [??]).
      by apply IH.
    + rewrite filter_cons_True by (unfold title_known; by rewrite Htitle).
      destruct (to_string_map_Known elems) as [[_ ->]|[Hno _]];
        [|by destruct Hno; apply Hf].
      cbn [attr.IsNull attr.IsUnknown negb andb reflect.diags reflect.into].
      rewrite Diagnostics_Append_nil, Hresp.
      rewrite IH by done.
      by rewrite fmap_cons, <- app_assoc, (sent_field_Known f elems).
Qed.

(** The loop, when some title does not convert: it returns with an error
    diagnostic and the state untouched. *)
Lemma Create_fields_error fs resp acc :
  ¬ titles_convert fs →
  ∃ resp', Create_fields fs resp acc = (resp', None) ∧
           diag.HasError (resource.Diagnostics resp') = true ∧
           resource.State resp' = resource.State resp.
Proof.
  revert resp acc. induction fs as [|f fs IH]; intros resp acc Hconv.
  - destruct Hconv. constructor.
  - cbn [Create_fields]. unfold tfsdk.Map_ElementsAs.
    destruct (FormFieldResourceModel.Title f) as [| |elems] eqn:Htitle.
    + apply IH. intros Hfs. apply Hconv. constructor; [congruence | done].
    + apply IH. intros Hfs. apply Hconv. constructor; [congruence | done].
    + cbn [attr.IsNull attr.IsUnknown negb andb].
      destruct (to_string_map_Known elems) as [[Hk ->]|[Hno [why ->]]].
      * cbn [reflect.diags reflect.into]. rewrite Diagnostics_Append_nil.
        destruct (diag.HasError (resource.Diagnostics resp)) eqn:Hresp; [eauto|].
        apply IH. intros Hfs. apply Hconv. constructor; [|done].
        intros elems' He. rewrite Htitle in He. by injection He as <-.
      * pose proof (HasError_diags_Failed (A:=GoMap) why
                      (resource.Diagnostics resp)) as He.
        unfold resource.Diagnostics_Append at 1. cbn [resource.Diagnostics].
        rewrite He. eexists. split; [done|]. split; [exact He | done].
Qed.

Lemma titles_convert_dec fs : titles_convert fs ∨ ¬ titles_convert fs.
Proof.
  unfold titles_convert. induction fs as [|f fs [IH|IH]].
  - left. constructor.
  - destruct (FormFieldResourceModel.Title f) as [| |elems] eqn:Htitle.
    + left. constructor; [congruence | done].
    + left. constructor; [congruence | done].
    + destruct (decide (known_strings elems)) as [Hk|Hk].
      * left. constructor; [|done]. intros elems' He.
        rewrite Htitle in He. by injection He as <-.
      * right. intros Hall. apply Forall_cons in Hall as [Hf _]. by apply Hk, Hf.
  - right. intros Hall. apply Forall_cons in Hall as [_ Hfs]. by apply IH.
Qed.

(** On a clean plan [Create] reaches the request, with the command built
    from the plan and the response as it was on entry. *)
Lemma Create_clean r req resp m fs :
  clean_plan req resp m fs →
  Create r req resp =
    Create_call r m
      (remsclient.SetFormFields (Create_formConfig m)
         (sent_field <$> filter title_known fs))
      resp.
Proof.
  intros (Hresp & Hm & Hfs & Hconv).
  unfold Create, tfsdk.Plan_Get. rewrite Hm.
  cbn [reflect.to_value reflect.diags reflect.into].
  rewrite Diagnostics_Append_nil, Hresp.
  assert (tfsdk.List_ElementsAs (FormResourceModel.Fields m) =
          reflect.Converted fs) as ->.
  { unfold tfsdk.List_ElementsAs.
    destruct Hfs as [[-> ->] | ->]; [done|]. by apply to_list_to_value. }
  cbn [reflect.diags reflect.into length]. rewrite bool_decide_eq_false_2 by lia.
  rewrite Hresp, Create_fields_clean by done. done.
Qed.

(** A handler that appended the diagnostics of a failed conversion and
    returned. *)
Local Ltac returned_on_failure :=
  unfold resource.Diagnostics_Append at 1 2; cbn [resource.Diagnostics];
  rewrite HasError_diags_Failed;
  eexists; split; [reflexivity|]; split;
  [cbn [resource.Diagnostics]; apply HasError_diags_Failed | reflexivity].

(** Otherwise [Create] returns before the request, with an error among the
    diagnostics and the state as it was. *)
Lemma Create_unclean r req resp :
  (∀ m fs, ¬ clean_plan req resp m fs) →
  ∃ resp', Create r req resp = Returned resp' [] ∧
           diag.HasError (resource.Diagnostics resp') = true ∧
           resource.State resp' = resource.State resp.
Proof.
  intros Hno. unfold Create, tfsdk.Plan_Get.
  destruct (tfsdk.Plan_Raw (resource.CreateRequest_Plan req)) as [| |m] eqn:Hm;
    cbn [reflect.to_value].
  1,2: returned_on_failure.
  cbn [reflect.diags reflect.into]. rewrite Diagnostics_Append_nil.
  destruct (diag.HasError (resource.Diagnostics resp)) eqn:Hresp; [eauto|].
  unfold tfsdk.List_ElementsAs.
  destruct (reflect.to_slice reflect.to_value (FormResourceModel.Fields m))
    as [fs|why] eqn:Hfs.
  - cbn [reflect.diags reflect.into length].
    rewrite bool_decide_eq_false_2 by lia. rewrite Hresp.
    assert (planned_fields m fs) as Hplanned.
    { unfold planned_fields.
      destruct (FormResourceModel.Fields m) as [| |elems]; simpl in Hfs.
      - left. split; congruence.
      - done.
      - right. f_equal. by apply to_list_to_value. }
    destruct (titles_convert_dec fs) as [Hconv|Hconv].
    + destruct (Hno m fs). by repeat split.
    + destruct (Create_fields_error fs resp [] Hconv) as (resp' & -> & ? & ?).
      eauto.
  - cbn [reflect.into].
    rewrite bool_decide_eq_true_2 by (simpl; lia). returned_on_failure.
Qed.

Lemma clean_plan_dec req resp :
  (∃ m fs, clean_plan req resp m fs) ∨ (∀ m fs, ¬ clean_plan req resp m fs).
Proof.
  unfold clean_plan.
  destruct (diag.HasError (resource.Diagnostics resp));
    [right; by intros m fs (? & _)|].
  destruct (tfsdk.Plan_Raw (resource.CreateRequest_Plan req)) as [| |m];
    [right; by intros m fs (_ & ? & _)..|].
  destruct (reflect.to_slice reflect.to_value (FormResourceModel.Fields m))
    as [fs|why] eqn:Hfs.
  - assert (planned_fields m fs) as Hplanned.
    { unfold planned_fields.
      destruct (FormResourceModel.Fields m) as [| |elems]; simpl in Hfs.
      - left. split; congruence.
      - done.
      - right. f_equal. by apply to_list_to_value. }
    destruct (titles_convert_dec fs) as [Hconv|Hconv].
    + left. by exists m, fs.
    + right. intros m' fs' (_ & [= <-] & Hp & Hc).
      by rewrite (planned_fields_inj _ _ _ Hplanned Hp) in Hconv.
  - right. intros m' fs' (_ & [= <-] & Hp & _).
    destruct Hp as [[Hp ->]|Hp]; rewrite Hp in Hfs; simpl in Hfs; [done|].
    assert (reflect.to_list reflect.to_value (attr.ValueKnown <$> fs') =
            reflect.Converted fs') by by apply to_list_to_value.
    congruence.
Qed.

(** The requests of [Create_call]: the one command, if there is a client. *)
Lemma Create_call_calls r m cmd resp :
  api_calls (trace_of (Create_call r m cmd resp)) =
    match client r with Some _ => [cmd] | None => [] end.
Proof.
  unfold Create_call. destruct (client r) as [c|]; [|done].
  destruct (remsclient.createErr _); [done|].
  destruct (remsclient.createResult _) as [res|]; [|done].
  destruct (remsclient.Success res); [|done].
  by destruct (remsclient.createResponse _).
Qed.

(** Every request of [Create] comes from a clean plan through a configured
    client, and is the command of that plan. *)
Lemma Create_calls_inv r req resp cmd :
  cmd ∈ api_calls (trace_of (Create r req resp)) →
  ∃ c m fs, client r = Some c ∧ clean_plan req resp m fs ∧
            cmd = command_of m fs ∧
            Create r req resp = Create_call r m cmd resp.
Proof.
  destruct (clean_plan_dec req resp) as [(m & fs & Hclean)|Hno].
  - rewrite (Create_clean r req resp m fs Hclean), Create_call_calls.
    destruct (client r) as [c|] eqn:Hc.
    + intros ->%list_elem_of_singleton. by exists c, m, fs.
    + by intros ?%elem_of_nil.
  - destruct (Create_unclean r req resp Hno) as (resp' & -> & _).
    by intros ?%elem_of_nil.
Qed.

Lemma Create_call_failed r c m cmd resp :
  client r = Some c →
  diag.HasError (resource.Diagnostics resp) = false →
  create_failed (remsclient.ApiFormsCreatePost_Execute c cmd) →
  ∃ detail,
    Create_call r m cmd resp =
      Returned
        {| resource.State := resource.State resp;
           resource.Diagnostics :=
             resource.Diagnostics resp ++
             [diag.NewErrorDiagnostic "Failure to create form" detail] |}
        [ApiFormsCreatePost cmd].
Proof.
  intros Hc Hresp Hfail. unfold Create_call. rewrite Hc.
  unfold resource.Diagnostics_AddError.
  destruct (remsclient.createErr _) as [err|] eqn:Herr.
  - rewrite AddError_fresh by done. eauto.
  - destruct Hfail as [[err Herr']|(res & -> & ->)]; [congruence|].
    cbn [negb]. rewrite AddError_fresh by done. eauto.
Qed.

Lemma Create_call_succeeded r c m cmd resp res hr :
  client r = Some c →
  remsclient.ApiFormsCreatePost_Execute c cmd =
    {| remsclient.createResult := Some res;
       remsclient.createResponse := Some hr;
       remsclient.createErr := None |} →
  remsclient.Success res = true →
  Create_call r m cmd resp =
    Returned
      {| resource.State :=
           {| tfsdk.State_Raw :=
                attr.ValueKnown
                  (FormResourceModel.set_Id m
                     (types.Int64Value (remsclient.GetId res))) |};
         resource.Diagnostics := resource.Diagnostics resp |}
      [ApiFormsCreatePost cmd; Log tflog.Info (http.Status hr);
       Log tflog.Trace "created a resource"].
Proof.
  intros Hc Hex Hres. unfold Create_call. rewrite Hc, Hex. simpl.
  rewrite Hres. simpl. unfold resource.State_Set. simpl.
  by rewrite Diagnostics_Append_nil.
Qed.

(** ** The claims about [FormResource.Create] *)

(** C1. Whenever the request of [Create] is answered by an error, or by a
    body whose [Success] is false, [Create] returns having added one error
    diagnostic ("Failure to create form") to the diagnostics, with the state
    as it was on entry and that single request as its only one. *)
Theorem Create_failure_keeps_state r c req resp cmd :
  client r = Some c →
  cmd ∈ api_calls (trace_of (Create r req resp)) →
  create_failed (remsclient.ApiFormsCreatePost_Execute c cmd) →
  ∃ d, diag.is_error d = true ∧ diag.Summary d = "Failure to create form" ∧
       Create r req resp =
         Returned
           {| resource.State := resource.State resp;
              resource.Diagnostics := resource.Diagnostics resp ++ [d] |}
           [ApiFormsCreatePost cmd].
Proof.
  intros Hc Hcall Hfail.
  destruct (Create_calls_inv _ _ _ _ Hcall) as (c' & m & fs & Hc' & Hclean & _ & ->).
  destruct Hclean as (Hresp & _).
  destruct (Create_call_failed r c m cmd resp Hc Hresp Hfail) as [detail ->].
  by exists (diag.NewErrorDiagnostic "Failure to create form" detail).
Qed.

Lemma Create_failure_keeps_state_witness :
  ∃ d, diag.is_error d = true ∧ diag.Summary d = "Failure to create form" ∧
       Create (configured rems_rejecting)
              (form_plan [field_applicant; field_untitled]) fresh_response =
         Returned
           {| resource.State := {| tfsdk.State_Raw := attr.ValueNull |};
              resource.Diagnostics := [d] |}
           [ApiFormsCreatePost (command_of (form_model [field_applicant; field_untitled])
                                  [field_applicant; field_untitled])].
Proof.
  apply (Create_failure_keeps_state (configured rems_rejecting) rems_rejecting
           (form_plan [field_applicant; field_untitled]) fresh_response).
  - reflexivity.
  - vm_compute. apply list_elem_of_here.
  - right. eexists. split; reflexivity.
Defined.

(** The same when the request itself fails: no state, one diagnostic. *)
Example Create_unreachable :
  Create (configured rems_unreachable) (form_plan [field_applicant]) fresh_response =
    Returned
      {| resource.State := {| tfsdk.State_Raw := attr.ValueNull |};
         resource.Diagnostics :=
           [diag.NewErrorDiagnostic "Failure to create form"
              (diag.Sprintf "Could not create form: %s %v"
                 [diag.ArgString "connection refused"; diag.ArgResponse None])] |}
      [ApiFormsCreatePost (command_of (form_model [field_applicant]) [field_applicant])].
Proof. by vm_compute. Qed.

(** C3. Whenever the request of [Create] is answered without error by a
    body whose [Success] is true, [Create] returns with no diagnostic added
    and the state set to the plan model in which only [id] is replaced, by
    the id of the reply; [organization_id], [title] and [fields] are those of
    the plan. *)
Theorem Create_success_state r c req resp cmd res hr :
  client r = Some c →
  cmd ∈ api_calls (trace_of (Create r req resp)) →
  remsclient.ApiFormsCreatePost_Execute c cmd =
    {| remsclient.createResult := Some res;
       remsclient.createResponse := Some hr;
       remsclient.createErr := None |} →
  remsclient.Success res = true →
  ∃ m, tfsdk.Plan_Raw (resource.CreateRequest_Plan req) = attr.ValueKnown m ∧
       Create r req resp =
         Returned
           {| resource.State :=
                {| tfsdk.State_Raw :=
                     attr.ValueKnown
                       {| FormResourceModel.Id :=
                            types.Int64Value (remsclient.GetId res);
                          FormResourceModel.OrganizationId :=
                            FormResourceModel.OrganizationId m;
                          FormResourceModel.Title := FormResourceModel.Title m;
                          FormResourceModel.Fields := FormResourceModel.Fields m |} |};
              resource.Diagnostics := resource.Diagnostics resp |}
           [ApiFormsCreatePost cmd; Log tflog.Info (http.Status hr);
            Log tflog.Trace "created a resource"].
Proof.
  intros Hc Hcall Hex Hres.
  destruct (Create_calls_inv _ _ _ _ Hcall) as (c' & m & fs & _ & Hclean & _ & ->).
  exists m. split; [apply Hclean|].
  by rewrite (Create_call_succeeded r c m cmd resp res hr).
Qed.

Lemma Create_success_state_witness :
  ∃ m, tfsdk.Plan_Raw
         (resource.CreateRequest_Plan (form_plan [field_applicant; field_untitled])) =
       attr.ValueKnown m ∧
       Create (configured rems_accepting)
              (form_plan [field_applicant; field_untitled]) fresh_response =
         Returned
           {| resource.State :=
                {| tfsdk.State_Raw :=
                     attr.ValueKnown
                       {| FormResourceModel.Id := types.Int64Value 7;
                          FormResourceModel.OrganizationId :=
                            FormResourceModel.OrganizationId m;
                          FormResourceModel.Title := FormResourceModel.Title m;
                          FormResourceModel.Fields := FormResourceModel.Fields m |} |};
              resource.Diagnostics := [] |}
           [ApiFormsCreatePost (command_of (form_model [field_applicant; field_untitled])
                                  [field_applicant; field_untitled]);
            Log tflog.Info "200 OK"; Log tflog.Trace "created a resource"].
Proof.
  apply (Create_success_state (configured rems_accepting) rems_accepting
           (form_plan [field_applicant; field_untitled]) fresh_response _
           {| remsclient.Success := true; remsclient.Id := Some 7%Z;
              remsclient.Errors := None |} http_ok).
  - reflexivity.
  - vm_compute. apply list_elem_of_here.
  - reflexivity.
  - reflexivity.
Defined.





(** C7. In every request of [Create] the form title is set: to nil when the
    plan's title is null, to the title's string value otherwise. *)
Theorem Create_title_mapping r req resp cmd :
  cmd ∈ api_calls (trace_of (Create r req resp)) →
  ∃ m, tfsdk.Plan_Raw (resource.CreateRequest_Plan req) = attr.ValueKnown m ∧
       remsclient.FormTitle cmd =
         if attr.IsNull (FormResourceModel.Title m)
         then {| remsclient.value := None; remsclient.isSet := true |}
         else {| remsclient.value :=
                   Some (types.ValueString (FormResourceModel.Title m));
                 remsclient.isSet := true |}.
Proof.
  intros Hcall.
  destruct (Create_calls_inv _ _ _ _ Hcall) as (c & m & fs & _ & Hclean & -> & _).
  exists m. split; [apply Hclean|].
  unfold command_of, Create_formConfig.
  by destruct (attr.IsNull (FormResourceModel.Title m)).
Qed.

Lemma Create_title_mapping_witness :
  ∃ m, tfsdk.Plan_Raw (resource.CreateRequest_Plan (form_plan [field_applicant])) =
       attr.ValueKnown m ∧
       remsclient.FormTitle (command_of (form_model [field_applicant]) [field_applicant]) =
         if attr.IsNull (FormResourceModel.Title m)
         then {| remsclient.value := None; remsclient.isSet := true |}
         else {| remsclient.value :=
                   Some (types.ValueString (FormResourceModel.Title m));
                 remsclient.isSet := true |}.
Proof.
  apply (Create_title_mapping (configured rems_accepting)
           (form_plan [field_applicant]) fresh_response).
  vm_compute. apply list_elem_of_here.
Defined.

(** What is sent for a field: its title strings, the string of its type,
    its optional flag (false when not given), and its id unless null. *)
Lemma sent_field_spec f :
  sent_field f =
    {| remsclient.FieldTitle := title_strings f;
       remsclient.FieldType := types.ValueString (FormFieldResourceModel.Type_ f);
       remsclient.FieldOptional :=
         types.ValueBool (FormFieldResourceModel.Optional f);
       remsclient.FieldId :=
         if attr.IsNull (FormFieldResourceModel.Id f) then None
         else Some (types.ValueString (FormFieldResourceModel.Id f)) |}.
Proof.
  unfold sent_field, newField_of.
  by destruct (attr.IsNull (FormFieldResourceModel.Id f)).
Qed.



(** The one field of that request. *)
Example Create_untitled_fields_omitted_sent :
  api_calls (trace_of
    (Create (configured rems_accepting)
       (form_plan [field_untitled; field_applicant; field_untitled])
       fresh_response)) =
  [ {| remsclient.Organization :=
         {| remsclient.OrganizationId_ := "Our Organisation" |};
       remsclient.FormTitle :=
         {| remsclient.value := Some "Access to XYZ data";
            remsclient.isSet := true |};
       remsclient.FormFields :=
         [ {| remsclient.FieldTitle := Some {[ "en" := "Applicant" ]};
              remsclient.FieldType := "header";
              remsclient.FieldOptional := false;
              remsclient.FieldId := Some "xyz_applicant" |} ] |} ].
Proof. by vm_compute. Qed.

(** ** Read, Update and Delete *)

(** C2, as the code has it. Of the four lifecycle operations of the form
    resource only [Create] is mapped to a REMS request. [Read], [Update] and
    [Delete] emit nothing on any input: [Read] writes the prior state back,
    [Update] writes the plan to the state, [Delete] leaves the response as it
    is. [Create] does issue its request on a clean plan. *)
Theorem only_Create_requests r :
  (∀ req resp, trace_of (Read r req resp) = []) ∧
  (∀ req resp, trace_of (Update r req resp) = []) ∧
  (∀ req resp, trace_of (Delete r req resp) = []) ∧
  (∀ req resp m,
     tfsdk.State_Raw (resource.ReadRequest_State req) = attr.ValueKnown m →
     Read r req resp =
       Returned
         (if diag.HasError (resource.Diagnostics resp) then resp
          else {| resource.State := {| tfsdk.State_Raw := attr.ValueKnown m |};
                  resource.Diagnostics := resource.Diagnostics resp |}) []) ∧
  (∀ req resp m,
     tfsdk.Plan_Raw (resource.UpdateRequest_Plan req) = attr.ValueKnown m →
     Update r req resp =
       Returned
         (if diag.HasError (resource.Diagnostics resp) then resp
          else {| resource.State := {| tfsdk.State_Raw := attr.ValueKnown m |};
                  resource.Diagnostics := resource.Diagnostics resp |}) []) ∧
  (∀ req resp m,
     tfsdk.State_Raw (resource.DeleteRequest_State req) = attr.ValueKnown m →
     Delete r req resp = Returned resp []) ∧
  (∀ req resp m fs,
     is_Some (client r) → clean_plan req resp m fs →
     api_calls (trace_of (Create r req resp)) = [command_of m fs]).
Proof.
  repeat split.
  - intros req resp. unfold Read. by destruct (diag.HasError _).
  - intros req resp. unfold Update. by destruct (diag.HasError _).
  - intros req resp. unfold Delete. by destruct (diag.HasError _).
  - intros req resp m Hm. unfold Read, tfsdk.State_Get. rewrite Hm.
    cbn [reflect.to_value reflect.diags reflect.into].
    rewrite Diagnostics_Append_nil.
    destruct (diag.HasError _); [done|].
    unfold resource.State_Set. simpl. by rewrite Diagnostics_Append_nil.
  - intros req resp m Hm. unfold Update, tfsdk.Plan_Get. rewrite Hm.
    cbn [reflect.to_value reflect.diags reflect.into].
    rewrite Diagnostics_Append_nil.
    destruct (diag.HasError _); [done|].
    unfold resource.State_Set. simpl. by rewrite Diagnostics_Append_nil.
  - intros req resp m Hm. unfold Delete, tfsdk.State_Get. rewrite Hm.
    cbn [reflect.to_value reflect.diags reflect.into].
    rewrite Diagnostics_Append_nil. by destruct (diag.HasError _).
  - intros req resp m fs [c Hc] Hclean.
    by rewrite (Create_clean r req resp m fs Hclean), Create_call_calls, Hc.
Qed.

Lemma only_Create_requests_witness :
  trace_of (Read (configured rems_accepting)
              {| resource.ReadRequest_State :=
                   {| tfsdk.State_Raw := attr.ValueKnown (form_model [field_applicant]) |} |}
              fresh_response) = [] ∧
  api_calls (trace_of (Create (configured rems_accepting)
                         (form_plan [field_applicant]) fresh_response)) =
    [command_of (form_model [field_applicant]) [field_applicant]].
Proof.
  destruct (only_Create_requests (configured rems_accepting))
    as (HRead & _ & _ & _ & _ & _ & HCreate).
  split; [apply HRead|].
  apply HCreate.
  - by eexists.
  - split; [reflexivity|]. split; [reflexivity|]. split; [right; reflexivity|].
    constructor; [|constructor]. intros e [= <-].
    apply map_Forall_singleton. by split.
Defined.

(** C2 as stated fails: with a configured client and a known prior state,
    none of [Read], [Update] and [Delete] issues a REMS request. *)
Lemma Read_Update_Delete_no_request :
  api_calls (trace_of
    (Read (configured rems_accepting)
       {| resource.ReadRequest_State :=
            {| tfsdk.State_Raw := attr.ValueKnown (form_model [field_applicant]) |} |}
       fresh_response)) = [] ∧
  api_calls (trace_of
    (Update (configured rems_accepting)
       {| resource.UpdateRequest_Plan :=
            {| tfsdk.Plan_Raw := attr.ValueKnown (form_model [field_applicant]) |} |}
       fresh_response)) = [] ∧
  api_calls (trace_of
    (Delete (configured rems_accepting)
       {| resource.DeleteRequest_State :=
            {| tfsdk.State_Raw := attr.ValueKnown (form_model [field_applicant]) |} |}
       fresh_response)) = [].
Proof. by vm_compute. Qed.

(** ** The provider functions *)

Lemma to_string_map_strings (title : gmap string string) :
  reflect.to_string_map (attr.ValueKnown (types.StringValue <$> title)) =
  reflect.Converted (Some title).
Proof.
  destruct (to_string_map_Known (types.StringValue <$> title))
    as [[_ ->]|[Hno _]].
  - by rewrite ValueString_StringValue.
  - destruct Hno. apply known_strings_fmap.
Qed.



(** C10. For a string [title], [Run] of [form_field_label] sets no error and
    the object with [title] that string (a string, not a map), [type]
    "label" and [optional] false; whenever [Run] ends without error, the
    object it set has [type] "label" and [optional] false. *)
Theorem label_Run_object r :
  (∀ title resp,
     FormFieldLabelFunction.Run r (label_request title) resp =
       ({| FormFieldLabelFunction.Error := None;
           FormFieldLabelFunction.Result :=
             attr.ValueKnown
               {| FormFieldLabelFunction.title := types.StringValue title;
                  FormFieldLabelFunction.type_ := types.StringValue "label";
                  FormFieldLabelFunction.optional := types.BoolValue false |} |},
        [])) ∧
  (∀ req resp,
     FormFieldLabelFunction.Error (FormFieldLabelFunction.Run r req resp).1 = None →
     ∃ obj,
       FormFieldLabelFunction.Result (FormFieldLabelFunction.Run r req resp).1 =
         attr.ValueKnown obj ∧
       FormFieldLabelFunction.type_ obj = types.StringValue "label" ∧
       FormFieldLabelFunction.optional obj = types.BoolValue false).
Proof.
  split.
  - done.
  - intros req resp. unfold FormFieldLabelFunction.Run.
    destruct (bool_decide _) eqn:Herr.
    + apply bool_decide_eq_true in Herr as [e He].
      cbn [fst FormFieldLabelFunction.Error] in *. congruence.
    + intros _. by eexists.
Qed.

Lemma label_Run_object_witness :
  ∃ obj,
    FormFieldLabelFunction.Result
      (FormFieldLabelFunction.Run FormFieldLabelFunction.Build_t
         (label_request "Please read the policy") label_fresh).1 =
      attr.ValueKnown obj ∧
    FormFieldLabelFunction.type_ obj = types.StringValue "label" ∧
    FormFieldLabelFunction.optional obj = types.BoolValue false.
Proof.
  apply (proj2 (label_Run_object FormFieldLabelFunction.Build_t)).
  by vm_compute.
Defined.



(** ** The provider's resources *)

(** C5. [Resources] lists six constructors, one for each REMS content
    object (catalogue items, categories, forms, licenses, resources,
    workflows) and no two for the same one. *)
Theorem Resources_cover_content_objects :
  Resources =
    [ resources.NewCatalogueItemResource; resources.NewCategoryResource;
      resources.NewFormResource; resources.NewLicenseResource;
      resources.NewResourceResource; resources.NewWorkflowResource ] ∧
  length Resources = 6 ∧
  NoDup (resources.manages <$> Resources) ∧
  (∀ o : ContentObject, ∃ c, c ∈ Resources ∧ resources.manages c = o).
Proof.
  split; [done|]. split; [done|]. split.
  - apply (bool_decide_unpack (NoDup (resources.manages <$> Resources))).
    by vm_compute.
  - intros o.
    destruct o;
      [ exists resources.NewFormResource
      | exists resources.NewCategoryResource
      | exists resources.NewLicenseResource
      | exists resources.NewWorkflowResource
      | exists resources.NewCatalogueItemResource
      | exists resources.NewResourceResource ];
      (split; [unfold Resources; set_solver | done]).
Qed.

(** * Further properties *)

(** ** How [Create] ends *)

Lemma clean_plan_inj req resp m1 fs1 m2 fs2 :
  clean_plan req resp m1 fs1 → clean_plan req resp m2 fs2 → m1 = m2 ∧ fs1 = fs2.
Proof.
  intros (_ & Hm1 & Hf1 & _) (_ & Hm2 & Hf2 & _).
  assert (m1 = m2) as -> by congruence.
  split; [done|]. by eapply planned_fields_inj.
Qed.

Lemma grown_refl ds : grown ds ds.
Proof. by left. Qed.

Lemma grown_Append_error ds d :
  diag.is_error d = true → grown ds (diag.Append ds [d]).
Proof.
  intros Hd. unfold diag.Append, diag.Contains, grown.
  case_bool_decide; [by left | right; by exists d].
Qed.

Lemma grown_Failed {A} ds why :
  grown ds (diag.Append ds (reflect.diags (@reflect.Failed A why))).
Proof. by apply grown_Append_error. Qed.

(** The loop leaves the state alone and adds at most one error; it goes on
    to the request with the response untouched, and ends the handler only
    with an error among the diagnostics. *)
Lemma Create_fields_grown fs resp acc resp' o :
  Create_fields fs resp acc = (resp', o) →
  resource.State resp' = resource.State resp ∧
  grown (resource.Diagnostics resp) (resource.Diagnostics resp') ∧
  (is_Some o → resp' = resp) ∧
  (o = None → diag.HasError (resource.Diagnostics resp') = true).
Proof.
  revert resp acc resp' o. induction fs as [|f fs IH]; intros resp acc resp' o.
  - intros [= <- <-]. split; [done|]. split; [apply grown_refl | done].
  - cbn [Create_fields]. unfold tfsdk.Map_ElementsAs.
    destruct (negb _ && negb _); [|by apply IH].
    destruct (reflect.to_string_map _) as [titleMap|why].
    + cbn [reflect.diags reflect.into]. rewrite Diagnostics_Append_nil.
      destruct (diag.HasError (resource.Diagnostics resp)) eqn:Hresp;
        [|by apply IH].
      intros [= <- <-]. split; [done|]. split; [apply grown_refl | done].
    + unfold resource.Diagnostics_Append at 1. cbn [resource.Diagnostics].
      rewrite HasError_diags_Failed. intros [= <- <-].
      cbn [resource.State resource.Diagnostics].
      split; [done|]. split; [apply (grown_Failed (A:=GoMap))|].
      split; [by intros [? [=]]|]. intros _.
      apply (HasError_diags_Failed (A:=GoMap)).
Qed.

(** The outcomes of the request, from diagnostics without error. *)
Lemma Create_call_outcomes r m cmd resp :
  diag.HasError (resource.Diagnostics resp) = false →
  (client r = None ∧ Create_call r m cmd resp = Panicked []) ∨
  ∃ c, client r = Some c ∧
    let ex := remsclient.ApiFormsCreatePost_Execute c cmd in
    (¬ usable_reply ex ∧ Create_call r m cmd resp = Panicked [ApiFormsCreatePost cmd]) ∨
    (usable_reply ex ∧ create_failed ex ∧
     ∃ detail,
       Create_call r m cmd resp =
         Returned
           {| resource.State := resource.State resp;
              resource.Diagnostics :=
                resource.Diagnostics resp ++
                [diag.NewErrorDiagnostic "Failure to create form" detail] |}
           [ApiFormsCreatePost cmd]) ∨
    (usable_reply ex ∧ ¬ create_failed ex ∧
     ∃ res hr,
       remsclient.createResult ex = Some res ∧
       remsclient.createResponse ex = Some hr ∧
       Create_call r m cmd resp =
         Returned
           {| resource.State :=
                {| tfsdk.State_Raw :=
                     attr.ValueKnown
                       (FormResourceModel.set_Id m
                          (types.Int64Value (remsclient.GetId res))) |};
              resource.Diagnostics := resource.Diagnostics resp |}
           [ApiFormsCreatePost cmd; Log tflog.Info (http.Status hr);
            Log tflog.Trace "created a resource"]).
Proof.
  intros Hresp. destruct (client r) as [c|] eqn:Hc.
  2:{ left. split; [done|]. unfold Create_call. by rewrite Hc. }
  right. exists c. split; [done|]. cbv zeta.
  unfold Create_call, usable_reply, create_failed. rewrite Hc.
  unfold resource.Diagnostics_AddError, resource.State_Set.
  destruct (remsclient.ApiFormsCreatePost_Execute c cmd) as [res hr err].
  cbn [remsclient.createErr remsclient.createResult remsclient.createResponse].
  destruct err as [err|].
  { right. left. split; [done|]. split; [by left|].
    rewrite AddError_fresh by done. by eexists. }
  destruct res as [res|].
  2:{ left. split; [|done]. intros H. by destruct (H eq_refl) as (? & ? & _). }
  destruct (remsclient.Success res) eqn:Hsucc; cbn [negb].
  2:{ right. left. split; [intros _; exists res; split; [done | congruence]|].
      split; [right; by exists res|].
      rewrite AddError_fresh by done. by eexists. }
  destruct hr as [hr|].
  2:{ left. split; [|done]. intros H. destruct (H eq_refl) as (res' & [= <-] & Hhr).
      by destruct (Hhr Hsucc). }
  right. right. split; [intros _; exists res; by split|].
  split.
  { intros [[? [=]]|(res' & [= <-] & ?)]. congruence. }
  exists res, hr. split; [done|]. split; [done|].
  cbn [tfsdk.State_Set]. by rewrite Diagnostics_Append_nil.
Qed.

(** Every path of [Create] to its end, but for the outcome of the request:
    [Create] has returned before the request, with an error among the
    diagnostics, at most one of them new, and the state untouched; or the
    plan is clean and the request is next. *)
Lemma Create_before_request r req resp :
  (∃ resp', Create r req resp = Returned resp' [] ∧
            diag.HasError (resource.Diagnostics resp') = true ∧
            resource.State resp' = resource.State resp ∧
            grown (resource.Diagnostics resp) (resource.Diagnostics resp') ∧
            ∀ m fs, ¬ clean_plan req resp m fs) ∨
  (∃ m fs, clean_plan req resp m fs ∧
           Create r req resp = Create_call r m (command_of m fs) resp).
Proof.
  destruct (clean_plan_dec req resp) as [(m & fs & Hclean)|Hno].
  { right. exists m, fs. split; [done|]. by apply Create_clean. }
  left. destruct (Create_unclean r req resp Hno) as (resp' & HCreate & Herr & Hstate).
  exists resp'. repeat split; [done..| |done].
  revert HCreate. unfold Create, tfsdk.Plan_Get.
  destruct (reflect.to_value _) as [m|why].
  2:{ unfold resource.Diagnostics_Append at 1 2. cbn [resource.Diagnostics].
      rewrite HasError_diags_Failed. intros [= <-].
      apply (grown_Failed (A:=FormResourceModel.t)). }
  cbn [reflect.diags reflect.into]. rewrite Diagnostics_Append_nil.
  destruct (diag.HasError (resource.Diagnostics resp)) eqn:Hresp.
  { intros [= <-]. apply grown_refl. }
  destruct (tfsdk.List_ElementsAs _) as [fs|why].
  2:{ cbn [reflect.into]. rewrite bool_decide_eq_true_2 by (simpl; lia).
      unfold resource.Diagnostics_Append at 1 2. cbn [resource.Diagnostics].
      rewrite HasError_diags_Failed. intros [= <-].
      apply (grown_Failed (A:=list FormFieldResourceModel.t)). }
  cbn [reflect.diags reflect.into length].
  rewrite bool_decide_eq_false_2 by lia. rewrite Hresp.
  destruct (Create_fields fs resp []) as [resp1 [newFields|]] eqn:Hloop.
  - destruct (Create_fields_grown _ _ _ _ _ Hloop) as (_ & _ & Heq & _).
    rewrite (Heq (mk_is_Some _ _ eq_refl)) in *.
    intros HCreate.
    destruct (Create_call_outcomes r m
                (remsclient.SetFormFields (Create_formConfig m) newFields)
                resp Hresp)
      as [[_ Hp]|(c & _ & [[_ Hp]|[(_ & _ & d & Hr)|(_ & _ & res & hr & _ & _ & Hr)]])];
      rewrite HCreate in *; done.
  - intros [= <-]. by destruct (Create_fields_grown _ _ _ _ _ Hloop) as (_ & ? & _).
Qed.

(** X1. Whenever [Create] returns, the diagnostics it leaves are those it
    was given, or those followed by a single new diagnostic, which is an
    error: nothing is dropped or reordered, no warning is ever raised. *)
Theorem Create_adds_at_most_one_error r req resp resp' trace :
  Create r req resp = Returned resp' trace →
  grown (resource.Diagnostics resp) (resource.Diagnostics resp').
Proof.
  intros HCreate.
  destruct (Create_before_request r req resp)
    as [(resp1 & H1 & _ & _ & Hgrown & _)|(m & fs & Hclean & H1)];
    rewrite H1 in HCreate.
  - by injection HCreate as <- _.
  - destruct Hclean as (Hresp & _).
    destruct (Create_call_outcomes r m (command_of m fs) resp Hresp)
      as [[_ Hp]|(c & _ & [[_ Hp]|[(_ & _ & d & Hr)|(_ & _ & res & hr & _ & _ & Hr)]])];
      rewrite HCreate in *; try done; injection Hr as -> _.
    + right. eexists. split; [|reflexivity]. done.
    + apply grown_refl.
Qed.

Lemma Create_adds_at_most_one_error_witness :
  grown []
    [diag.NewErrorDiagnostic "Failure to create form"
       (diag.Sprintf "Could not create form: %v"
          [diag.ArgErrors ["t.form.validation/required"]])].
Proof.
  apply (Create_adds_at_most_one_error (configured rems_rejecting)
           (form_plan [field_applicant]) fresh_response
           {| resource.State := {| tfsdk.State_Raw := attr.ValueNull |};
              resource.Diagnostics :=
                [diag.NewErrorDiagnostic "Failure to create form"
                   (diag.Sprintf "Could not create form: %v"
                      [diag.ArgErrors ["t.form.validation/required"]])] |}
           [ApiFormsCreatePost (command_of (form_model [field_applicant])
                                  [field_applicant])]).
  by vm_compute.
Defined.



(** X3. With a client whose every reply is usable (a reply without error
    carries a body, and with a successful body the HTTP response), [Create]
    returns on every plan and every response: it does not panic. *)
Theorem Create_returns r c req resp :
  client r = Some c →
  (∀ cmd, usable_reply (remsclient.ApiFormsCreatePost_Execute c cmd)) →
  ∃ resp' trace, Create r req resp = Returned resp' trace.
Proof.
  intros Hc Husable.
  destruct (Create_before_request r req resp)
    as [(resp1 & -> & _)|(m & fs & (Hresp & _) & ->)]; [by eexists _, _|].
  destruct (Create_call_outcomes r m (command_of m fs) resp Hresp)
    as [[Hnone _]|(c' & Hc' & [[Hno _]|[(_ & _ & d & ->)|(_ & _ & res & hr & _ & _ & ->)]])].
  - congruence.
  - destruct Hno. rewrite Hc in Hc'. injection Hc' as <-. apply Husable.
  - by eexists _, _.
  - by eexists _, _.
Qed.

Lemma Create_returns_witness :
  ∃ resp' trace,
    Create (configured rems_accepting)
      (form_plan [field_applicant; field_null_text]) fresh_response =
    Returned resp' trace.
Proof.
  apply (Create_returns (configured rems_accepting) rems_accepting).
  - reflexivity.
  - intros cmd _. eexists. split; [reflexivity|]. intros _. by eexists.
Defined.

(** X4. [Create] panics in two cases only, both on a clean plan: without a
    client, before anything is sent; or with a client whose reply is not
    usable, after the request has been sent. In every other case it
    returns. *)
Theorem Create_panics_iff r req resp trace :
  Create r req resp = Panicked trace ↔
  ∃ m fs, clean_plan req resp m fs ∧
    ((client r = None ∧ trace = []) ∨
     ∃ c, client r = Some c ∧
          ¬ usable_reply (remsclient.ApiFormsCreatePost_Execute c (command_of m fs)) ∧
          trace = [ApiFormsCreatePost (command_of m fs)]).
Proof.
  destruct (Create_before_request r req resp)
    as [(resp1 & -> & _ & _ & _ & Hno)|(m & fs & Hclean & ->)].
  { split; [done|]. intros (m & fs & Hclean & _). by destruct (Hno m fs). }
  pose proof Hclean as (Hresp & _).
  destruct (Create_call_outcomes r m (command_of m fs) resp Hresp)
    as [[Hnone ->]|(c & Hc & [[Hno ->]|[(Hu & _ & d & ->)|(Hu & _ & res & hr & _ & _ & ->)]])].
  - split.
    + intros [= <-]. exists m, fs. split; [done|]. by left.
    + intros (m' & fs' & _ & [[_ ->]|(c & Hc & _)]); [done | congruence].
  - split.
    + intros [= <-]. exists m, fs. split; [done|]. right. by exists c.
    + intros (m' & fs' & Hclean' & [[? _]|(c' & _ & _ & ->)]); [congruence|].
      by destruct (clean_plan_inj _ _ _ _ _ _ Hclean Hclean') as [-> ->].
  - split; [done|].
    intros (m' & fs' & Hclean' & [[? _]|(c' & Hc' & Hno & _)]); [congruence|].
    destruct (clean_plan_inj _ _ _ _ _ _ Hclean Hclean') as [-> ->].
    destruct Hno. rewrite Hc in Hc'. by injection Hc' as <-.
  - split; [done|].
    intros (m' & fs' & Hclean' & [[? _]|(c' & Hc' & Hno & _)]); [congruence|].
    destruct (clean_plan_inj _ _ _ _ _ _ Hclean Hclean') as [-> ->].
    destruct Hno. rewrite Hc in Hc'. by injection Hc' as <-.
Qed.

Lemma Create_panics_iff_witness :
  Create (configured rems_silent) (form_plan [field_applicant]) fresh_response =
  Panicked [ApiFormsCreatePost (command_of (form_model [field_applicant])
                                  [field_applicant])].
Proof.
  apply Create_panics_iff.
  exists (form_model [field_applicant]), [field_applicant].
  split.
  - split; [reflexivity|]. split; [reflexivity|]. split; [right; reflexivity|].
    constructor; [|constructor]. intros e [= <-].
    apply map_Forall_singleton. by split.
  - right. exists rems_silent. split; [reflexivity|]. split; [|reflexivity].
    intros H. by destruct (H eq_refl) as (? & ? & _).
Defined.

(** ** Configure, then Create *)

(** The requests of [Create] on a clean plan, and off one. *)
Lemma api_calls_clean r req resp m fs :
  clean_plan req resp m fs →
  api_calls (trace_of (Create r req resp)) =
    match client r with Some _ => [command_of m fs] | None => [] end.
Proof. intros Hclean. by rewrite (Create_clean r req resp m fs Hclean), Create_call_calls. Qed.

Lemma api_calls_unclean r req resp :
  (∀ m fs, ¬ clean_plan req resp m fs) →
  api_calls (trace_of (Create r req resp)) = [].
Proof. intros Hno. by destruct (Create_unclean r req resp Hno) as (resp' & -> & _). Qed.

(** X5. A resource fresh from [NewFormResource] and configured once, then
    asked to create a clean plan: handed an API client it sends the command
    of the plan; handed nothing, a nil client, or a value of another type (for
    which [Configure] raises an error) it keeps no client and [Create] panics
    before anything is sent. *)
Theorem Configure_then_Create pd cresp req resp m fs :
  clean_plan req resp m fs →
  let configured_ := Configure NewFormResource {| ProviderData := pd |} cresp in
  match pd with
  | Some (APIClientPtr (Some c)) =>
      configured_.2 = cresp ∧
      api_calls (trace_of (Create configured_.1 req resp)) = [command_of m fs]
  | Some (OtherType typeName) =>
      diag.HasError (Configure_Diagnostics configured_.2) = true ∧
      Create configured_.1 req resp = Panicked []
  | _ =>
      configured_.2 = cresp ∧
      Create configured_.1 req resp = Panicked []
  end.
Proof.
  intros Hclean. cbv zeta. unfold Configure. cbn [ProviderData].
  destruct pd as [[[c|]|typeName]|]; cbn [fst snd].
  - split; [done|]. by rewrite (api_calls_clean _ _ _ _ _ Hclean).
  - split; [done|]. by rewrite (Create_clean _ _ _ _ _ Hclean).
  - split; [by apply HasError_Append_error|].
    by rewrite (Create_clean _ _ _ _ _ Hclean).
  - split; [done|]. by rewrite (Create_clean _ _ _ _ _ Hclean).
Qed.

Lemma clean_applicant :
  clean_plan (form_plan [field_applicant]) fresh_response
    (form_model [field_applicant]) [field_applicant].
Proof.
  split; [reflexivity|]. split; [reflexivity|]. split; [right; reflexivity|].
  constructor; [|constructor]. intros e [= <-].
  apply map_Forall_singleton. by split.
Qed.

Lemma Configure_then_Create_witness :
  Create (Configure NewFormResource {| ProviderData := None |}
            {| Configure_Diagnostics := [] |}).1
    (form_plan [field_applicant]) fresh_response = Panicked [].
Proof.
  apply (Configure_then_Create None {| Configure_Diagnostics := [] |}
           (form_plan [field_applicant]) fresh_response
           (form_model [field_applicant]) [field_applicant]).
  exact clean_applicant.
Defined.

(** ** What reaches REMS *)

Lemma sent_field_same f g : same_for_REMS f g → sent_field f = sent_field g.
Proof.
  intros (Hid & Htype & Htitle & Hopt).
  rewrite !sent_field_spec. unfold title_strings.
  by rewrite Hid, Htype, Htitle, Hopt.
Qed.

Lemma sent_fields_same fs fs' :
  Forall2 same_for_REMS fs fs' →
  sent_field <$> filter title_known fs = sent_field <$> filter title_known fs'.
Proof.
  induction 1 as [|f g fs fs' Hfg _ IH]; [done|].
  pose proof Hfg as (_ & _ & Htitle & _).
  destruct (decide (title_known f)) as [Hk|Hk].
  - rewrite !filter_cons_True;
      [|by unfold title_known in *; rewrite <- Htitle|done].
    by rewrite !fmap_cons, IH, (sent_field_same f g).
  - rewrite !filter_cons_False;
      [done|by unfold title_known in *; rewrite <- Htitle|done].
Qed.

Lemma titles_convert_same fs fs' :
  Forall2 same_for_REMS fs fs' → titles_convert fs → titles_convert fs'.
Proof.
  unfold titles_convert. induction 1 as [|f g fs fs' Hfg _ IH]; [done|].
  intros [Hf Hfs]%Forall_cons. constructor; [|by apply IH].
  destruct Hfg as (_ & _ & Htitle & _). intros elems. rewrite <- Htitle. apply Hf.
Qed.

Lemma same_for_REMS_sym fs fs' :
  Forall2 same_for_REMS fs fs' → Forall2 same_for_REMS fs' fs.
Proof.
  induction 1 as [|f g fs fs' (? & ? & ? & ?) _ IH]; constructor; [|done].
  by repeat split.
Qed.

(** The plan of a model with a known field list is clean exactly when no
    error is there on entry and the titles convert. *)
Lemma clean_plan_of m fs resp :
  FormResourceModel.Fields m = attr.ValueKnown (attr.ValueKnown <$> fs) →
  (diag.HasError (resource.Diagnostics resp) = false ∧ titles_convert fs →
   clean_plan (plan_of m) resp m fs) ∧
  (¬ (diag.HasError (resource.Diagnostics resp) = false ∧ titles_convert fs) →
   ∀ m' fs', ¬ clean_plan (plan_of m) resp m' fs').
Proof.
  intros Hfields. split.
  - intros [Hresp Hconv]. split; [done|]. split; [done|]. split; [by right | done].
  - intros Hno m' fs' (Hresp & [= <-] & Hplanned & Hconv).
    apply Hno. split; [done|].
    by rewrite (planned_fields_inj m fs fs' (or_intror Hfields) Hplanned).
Qed.

(** X6. What [Create] sends does not depend on the plan's [id], nor on the
    [info] and [placeholder] of its fields: two plans with the same
    organisation and title, whose fields agree one by one on [id], [type],
    [title] and [optional], lead to the same requests. These attributes
    never reach REMS. *)
Theorem Create_ignores_info_placeholder r resp m m' fs fs' :
  FormResourceModel.OrganizationId m = FormResourceModel.OrganizationId m' →
  FormResourceModel.Title m = FormResourceModel.Title m' →
  FormResourceModel.Fields m = attr.ValueKnown (attr.ValueKnown <$> fs) →
  FormResourceModel.Fields m' = attr.ValueKnown (attr.ValueKnown <$> fs') →
  Forall2 same_for_REMS fs fs' →
  api_calls (trace_of (Create r (plan_of m) resp)) =
  api_calls (trace_of (Create r (plan_of m') resp)).
Proof.
  intros Horg Htitle Hfs Hfs' Hsame.
  destruct (clean_plan_of m fs resp Hfs) as [Hyes Hno].
  destruct (clean_plan_of m' fs' resp Hfs') as [Hyes' Hno'].
  destruct (diag.HasError (resource.Diagnostics resp)) eqn:Hresp.
  { rewrite !api_calls_unclean; [done | apply Hno' | apply Hno]; by intros [? _]. }
  destruct (titles_convert_dec fs) as [Hconv|Hconv].
  - rewrite (api_calls_clean r _ resp m fs) by by apply Hyes.
    rewrite (api_calls_clean r _ resp m' fs')
      by (apply Hyes'; split; [done|]; by apply (titles_convert_same fs fs')).
    destruct (client r); [|done]. f_equal.
    unfold command_of, Create_formConfig.
    by rewrite Horg, Htitle, (sent_fields_same fs fs').
  - rewrite !api_calls_unclean; [done | apply Hno' | apply Hno].
    + intros [_ Hconv']. apply Hconv.
      apply (titles_convert_same fs' fs); [by apply same_for_REMS_sym | done].
    + by intros [_ ?].
Qed.

Lemma Create_ignores_info_placeholder_witness :
  api_calls (trace_of
    (Create (configured rems_accepting)
       (plan_of (form_model [field_applicant])) fresh_response)) =
  api_calls (trace_of
    (Create (configured rems_accepting)
       (plan_of form_model_described) fresh_response)).
Proof.
  apply (Create_ignores_info_placeholder (configured rems_accepting) fresh_response
           (form_model [field_applicant]) form_model_described
           [field_applicant] [field_applicant_described]);
    [reflexivity | reflexivity | reflexivity | reflexivity |].
  constructor; [|constructor]. by repeat split.
Defined.



(** ** Read, Update and Delete at the edges *)

(** X8. Given a state (for [Update], a plan) that is null or unknown, [Read],
    [Update] and [Delete] return with an error among the diagnostics, at
    most one of them new, the state of the response untouched and nothing
    emitted. *)
Theorem handlers_need_a_known_object r resp (raw : attr.Value FormResourceModel.t) :
  attr.IsNull raw || attr.IsUnknown raw = true →
  (∃ resp', Read r {| resource.ReadRequest_State := {| tfsdk.State_Raw := raw |} |}
              resp = Returned resp' [] ∧
            diag.HasError (resource.Diagnostics resp') = true ∧
            grown (resource.Diagnostics resp) (resource.Diagnostics resp') ∧
            resource.State resp' = resource.State resp) ∧
  (∃ resp', Update r {| resource.UpdateRequest_Plan := {| tfsdk.Plan_Raw := raw |} |}
              resp = Returned resp' [] ∧
            diag.HasError (resource.Diagnostics resp') = true ∧
            grown (resource.Diagnostics resp) (resource.Diagnostics resp') ∧
            resource.State resp' = resource.State resp) ∧
  (∃ resp', Delete r {| resource.DeleteRequest_State := {| tfsdk.State_Raw := raw |} |}
              resp = Returned resp' [] ∧
            diag.HasError (resource.Diagnostics resp') = true ∧
            grown (resource.Diagnostics resp) (resource.Diagnostics resp') ∧
            resource.State resp' = resource.State resp).
Proof.
  intros Hraw.
  assert (∃ why, reflect.to_value raw = reflect.Failed why) as [why Hwhy]
    by (destruct raw; [by eexists..|done]).
  unfold Read, Update, Delete, tfsdk.State_Get, tfsdk.Plan_Get.
  cbn [resource.ReadRequest_State resource.UpdateRequest_Plan
       resource.DeleteRequest_State tfsdk.State_Raw tfsdk.Plan_Raw].
  rewrite Hwhy.
  unfold resource.Diagnostics_Append. cbn [resource.Diagnostics].
  rewrite (HasError_diags_Failed (A:=FormResourceModel.t)).
  repeat split; eexists; (split; [reflexivity|]);
    cbn [resource.Diagnostics resource.State];
    (split; [apply (HasError_diags_Failed (A:=FormResourceModel.t))|]);
    (split; [apply (grown_Failed (A:=FormResourceModel.t)) | reflexivity]).
Qed.

Lemma handlers_need_a_known_object_witness :
  ∃ resp', Delete (configured rems_accepting)
             {| resource.DeleteRequest_State := {| tfsdk.State_Raw := attr.ValueNull |} |}
             fresh_response = Returned resp' [] ∧
           diag.HasError (resource.Diagnostics resp') = true ∧
           grown (resource.Diagnostics fresh_response) (resource.Diagnostics resp') ∧
           resource.State resp' = resource.State fresh_response.
Proof.
  apply (handlers_need_a_known_object (configured rems_accepting) fresh_response
           attr.ValueNull).
  reflexivity.
Defined.

(** The state [Create] leaves without an error is a known object. *)
Lemma Create_no_error_state r req resp resp' trace :
  Create r req resp = Returned resp' trace →
  diag.HasError (resource.Diagnostics resp') = false →
  ∃ m', resource.State resp' = {| tfsdk.State_Raw := attr.ValueKnown m' |}.
Proof.
  intros HCreate Hok.
  destruct (Create_before_request r req resp)
    as [(resp1 & H1 & Herr & _)|(m & fs & (Hresp & _) & H1)];
    rewrite H1 in HCreate.
  - injection HCreate as <- _. congruence.
  - destruct (Create_call_outcomes r m (command_of m fs) resp Hresp)
      as [[_ Hp]|(c & _ & [[_ Hp]|[(_ & _ & d & Hr)|(_ & _ & res & hr & _ & _ & Hr)]])];
      rewrite HCreate in *; try done; injection Hr as -> _.
    + cbn [resource.Diagnostics] in Hok. rewrite HasError_app in Hok.
      simpl in Hok. by rewrite orb_true_r in Hok.
    + by eexists.
Qed.

(** X9. After a [Create] that returned without error, the state it wrote
    goes through the other handlers unchanged: [Read] on that state writes
    the same state back, and [Delete] on it returns having done nothing;
    neither adds a diagnostic nor emits anything, so the form stays in
    REMS. *)
Theorem Read_Delete_after_Create r req resp resp' trace resp2 :
  Create r req resp = Returned resp' trace →
  diag.HasError (resource.Diagnostics resp') = false →
  diag.HasError (resource.Diagnostics resp2) = false →
  Read r {| resource.ReadRequest_State := resource.State resp' |} resp2 =
    Returned
      {| resource.State := resource.State resp';
         resource.Diagnostics := resource.Diagnostics resp2 |} [] ∧
  Delete r {| resource.DeleteRequest_State := resource.State resp' |} resp2 =
    Returned resp2 [].
Proof.
  intros HCreate Hok Hresp2.
  destruct (Create_no_error_state _ _ _ _ _ HCreate Hok) as [m' ->].
  unfold Read, Delete, tfsdk.State_Get.
  cbn [resource.ReadRequest_State resource.DeleteRequest_State tfsdk.State_Raw
       reflect.to_value reflect.diags reflect.into].
  rewrite Diagnostics_Append_nil, Hresp2.
  split; [|done].
  unfold resource.State_Set. cbn [tfsdk.State_Set resource.State resource.Diagnostics].
  by rewrite Diagnostics_Append_nil.
Qed.

Lemma Read_Delete_after_Create_witness :
  Read (configured rems_accepting)
    {| resource.ReadRequest_State :=
         {| tfsdk.State_Raw :=
              attr.ValueKnown
                (FormResourceModel.set_Id (form_model [field_applicant])
                   (types.Int64Value 7)) |} |}
    fresh_response =
    Returned
      {| resource.State :=
           {| tfsdk.State_Raw :=
                attr.ValueKnown
                  (FormResourceModel.set_Id (form_model [field_applicant])
                     (types.Int64Value 7)) |};
         resource.Diagnostics := [] |} [] ∧
  Delete (configured rems_accepting)
    {| resource.DeleteRequest_State :=
         {| tfsdk.State_Raw :=
              attr.ValueKnown
                (FormResourceModel.set_Id (form_model [field_applicant])
                   (types.Int64Value 7)) |} |}
    fresh_response = Returned fresh_response [].
Proof.
  apply (Read_Delete_after_Create (configured rems_accepting)
           (form_plan [field_applicant]) fresh_response
           {| resource.State :=
                {| tfsdk.State_Raw :=
                     attr.ValueKnown
                       (FormResourceModel.set_Id (form_model [field_applicant])
                          (types.Int64Value 7)) |};
              resource.Diagnostics := [] |}
           [ApiFormsCreatePost (command_of (form_model [field_applicant])
                                  [field_applicant]);
            Log tflog.Info "200 OK"; Log tflog.Trace "created a resource"]
           fresh_response).
  - by vm_compute.
  - reflexivity.
  - reflexivity.
Defined.

(** ** The provider functions at the edges *)

(** X10. [Run] of [form_field_header] on a title map sets no error exactly
    when [field_id] is a known string and every string of the map is known;
    a null or unknown [field_id], or a title such as [{ en = null }], sets an
    error, and then the result is left as it was. *)
Theorem header_Run_error_iff r field_id elems resp :
  let out :=
    FormFieldHeaderFunction.Run r
      {| FormFieldHeaderFunction.Arguments := (field_id, attr.ValueKnown elems) |}
      resp in
  (FormFieldHeaderFunction.Error out.1 = None ↔
   (attr.IsNull field_id = false ∧ attr.IsUnknown field_id = false) ∧
   known_strings elems) ∧
  (FormFieldHeaderFunction.Error out.1 ≠ None →
   FormFieldHeaderFunction.Result out.1 = FormFieldHeaderFunction.Result resp).
Proof.
  cbv zeta. unfold FormFieldHeaderFunction.Run.
  cbn [FormFieldHeaderFunction.Arguments fst snd].
  destruct (to_string_map_Known elems) as [[Hk ->]|[Hno [why ->]]].
  - destruct field_id as [| |s]; cbn; (split; [split|]); try done.
    + by intros [[? ?] _].
    + by intros [[? ?] _].
  - destruct field_id as [| |s], why; cbn; (split; [split|]); try done;
      by intros [_ ?].
Qed.

(** X11. [Run] of [form_field_label] sets no error exactly when [title] is
    a known string; on a null or unknown [title] it sets an error and leaves
    the result as it was. *)
Theorem label_Run_error_iff r title resp :
  let out :=
    FormFieldLabelFunction.Run r {| FormFieldLabelFunction.Arguments := title |} resp in
  (FormFieldLabelFunction.Error out.1 = None ↔
   attr.IsNull title = false ∧ attr.IsUnknown title = false) ∧
  (FormFieldLabelFunction.Error out.1 ≠ None →
   FormFieldLabelFunction.Result out.1 = FormFieldLabelFunction.Result resp).
Proof.
  cbv zeta. unfold FormFieldLabelFunction.Run.
  cbn [FormFieldLabelFunction.Arguments].
  destruct title as [| |s]; cbn; (split; [split|]); try done; by intros [? ?].
Qed.

Lemma header_Run_error_iff_witness :
  FormFieldHeaderFunction.Result
    (FormFieldHeaderFunction.Run FormFieldHeaderFunction.Build_t
       {| FormFieldHeaderFunction.Arguments :=
            (attr.ValueKnown "xyz_purpose",
             attr.ValueKnown {[ "en" := attr.ValueNull ]}) |}
       header_fresh).1 =
  FormFieldHeaderFunction.Result header_fresh.
Proof.
  apply (proj2 (header_Run_error_iff FormFieldHeaderFunction.Build_t
                  (attr.ValueKnown "xyz_purpose") {[ "en" := attr.ValueNull ]}
                  header_fresh)).
  vm_compute. discriminate.
Defined.

Lemma label_Run_error_iff_witness :
  FormFieldLabelFunction.Result
    (FormFieldLabelFunction.Run FormFieldLabelFunction.Build_t
       {| FormFieldLabelFunction.Arguments := attr.ValueNull |} label_fresh).1 =
  FormFieldLabelFunction.Result label_fresh.
Proof.
  apply (proj2 (label_Run_error_iff FormFieldLabelFunction.Build_t attr.ValueNull
                  label_fresh)).
  vm_compute. discriminate.
Defined.

(** ** From the field functions to the request *)

Lemma header_field_eq a :
  header_field a =
    {| FormFieldResourceModel.Id := types.StringValue a.1;
       FormFieldResourceModel.Type_ := types.StringValue "header";
       FormFieldResourceModel.Title := attr.ValueKnown (types.StringValue <$> a.2);
       FormFieldResourceModel.Info := attr.ValueNull;
       FormFieldResourceModel.Placeholder := attr.ValueNull;
       FormFieldResourceModel.Optional := types.BoolValue false |}.
Proof.
  unfold header_field, FormFieldHeaderFunction.Run, header_request.
  cbn [FormFieldHeaderFunction.Arguments fst snd].
  by rewrite to_string_map_strings.
Qed.

Lemma header_fields_sent args :
  titles_convert (header_field <$> args) ∧
  sent_field <$> filter title_known (header_field <$> args) =
    (λ a, {| remsclient.FieldTitle := Some a.2;
             remsclient.FieldType := "header";
             remsclient.FieldOptional := false;
             remsclient.FieldId := Some a.1 |}) <$> args.
Proof.
  induction args as [|a args [IHconv IHsent]]; [by split; [constructor|]|].
  rewrite !fmap_cons. split.
  - constructor; [|done]. rewrite header_field_eq. intros elems [= <-].
    apply known_strings_fmap.
  - rewrite filter_cons_True by (rewrite header_field_eq; by split).
    rewrite fmap_cons, IHsent. f_equal.
    rewrite sent_field_spec, header_field_eq. unfold title_strings.
    cbn. by rewrite ValueString_StringValue.
Qed.

(** X12. A form whose [fields] are built by [form_field_header], as in the
    README, is created with one request that carries, for each call and in
    order, a field with that id, that title, type "header" and optional
    false: no such field is dropped and none makes [Create] fail. *)
Theorem Create_sends_header_fields r c resp m args :
  client r = Some c →
  diag.HasError (resource.Diagnostics resp) = false →
  FormResourceModel.Fields m =
    attr.ValueKnown (attr.ValueKnown <$> (header_field <$> args)) →
  ∃ cmd,
    api_calls (trace_of (Create r (plan_of m) resp)) = [cmd] ∧
    remsclient.FormFields cmd =
      (λ a, {| remsclient.FieldTitle := Some a.2;
               remsclient.FieldType := "header";
               remsclient.FieldOptional := false;
               remsclient.FieldId := Some a.1 |}) <$> args.
Proof.
  intros Hc Hresp Hfields.
  destruct (header_fields_sent args) as [Hconv Hsent].
  destruct (clean_plan_of m (header_field <$> args) resp Hfields) as [Hclean _].
  exists (command_of m (header_field <$> args)). split.
  - by rewrite (api_calls_clean r _ resp m (header_field <$> args)), Hc by by apply Hclean.
  - done.
Qed.

Lemma Create_sends_header_fields_witness :
  ∃ cmd,
    api_calls (trace_of
      (Create (configured rems_accepting)
         (plan_of
            (form_model
               (header_field <$>
                [("xyz_applicant", {[ "en" := "Applicant" ]});
                 ("xyz_purpose", {[ "en" := "Purpose" ]})])))
         fresh_response)) = [cmd] ∧
    remsclient.FormFields cmd =
      (λ a, {| remsclient.FieldTitle := Some a.2;
               remsclient.FieldType := "header";
               remsclient.FieldOptional := false;
               remsclient.FieldId := Some a.1 |}) <$>
      [("xyz_applicant", {[ "en" := "Applicant" ]});
       ("xyz_purpose", {[ "en" := "Purpose" ]})].
Proof.
  apply (Create_sends_header_fields (configured rems_accepting) rems_accepting);
    reflexivity.
Defined.

(** X13. The object type [form_field_header] declares fits the schema of a
    form field: each of its attributes is an attribute of [fieldSchema] with
    the same type, and the one required attribute, [type], is among them.
    That of [form_field_label] does not: its [title] is a string where
    [fieldSchema] has a map of strings. *)
Theorem header_fits_fieldSchema_label_does_not :
  fits header_Return fieldSchema ∧
  ¬ fits label_Return fieldSchema ∧
  label_Return !! "title" = Some schema.StringType ∧
  fst <$> fieldSchema !! "title" = Some (schema.MapType schema.StringType).
Proof.
  split; [|split; [|split; reflexivity]].
  - apply (bool_decide_unpack (fits header_Return fieldSchema)). by vm_compute.
  - intros [Hattrs _]. specialize (Hattrs "title" schema.StringType eq_refl).
    by vm_compute in Hattrs.
Qed.

(** ** Configuring the provider *)



(** X15. The provider hands out a client only without error. Whenever its
    [Configure] ends with an error among the diagnostics, which it does on a
    null or unknown configuration object and on entry with an error, the data
    for resources and data sources are what they were. *)
Theorem provider_Configure_error network p req presp :
  let presp' := RemsContentProvider.Configure network p req presp in
  (diag.HasError (RemsContentProvider.Diagnostics presp') = true →
   RemsContentProvider.ResourceData presp' = RemsContentProvider.ResourceData presp ∧
   RemsContentProvider.DataSourceData presp' =
     RemsContentProvider.DataSourceData presp) ∧
  (attr.IsNull (RemsContentProvider.Config req) ||
   attr.IsUnknown (RemsContentProvider.Config req) = true →
   diag.HasError (RemsContentProvider.Diagnostics presp') = true ∧
   grown (RemsContentProvider.Diagnostics presp)
         (RemsContentProvider.Diagnostics presp')).
Proof.
  cbv zeta. unfold RemsContentProvider.Configure.
  destruct (RemsContentProvider.Config req) as [| |data];
    cbn [reflect.to_value RemsContentProvider.Diagnostics].
  1,2: rewrite (HasError_diags_Failed (A:=RemsContentProvider.Model));
       cbn [RemsContentProvider.ResourceData RemsContentProvider.DataSourceData
            RemsContentProvider.Diagnostics];
       (split; [done|]); intros _;
       (split; [apply (HasError_diags_Failed (A:=RemsContentProvider.Model))
               | apply (grown_Failed (A:=RemsContentProvider.Model))]).
  cbn [reflect.diags]. rewrite Append_nil.
  destruct (diag.HasError (RemsContentProvider.Diagnostics presp)) eqn:Hpresp;
    cbn [RemsContentProvider.ResourceData RemsContentProvider.DataSourceData
         RemsContentProvider.Diagnostics attr.IsNull attr.IsUnknown orb];
    (split; [|done]); [done | congruence].
Qed.

Lemma provider_Configure_error_witness :
  diag.HasError
    (RemsContentProvider.Diagnostics
       (RemsContentProvider.Configure network_accepting (RemsContentProvider.New "dev")
          {| RemsContentProvider.Config := attr.ValueUnknown |} provider_fresh)) = true ∧
  grown (RemsContentProvider.Diagnostics provider_fresh)
    (RemsContentProvider.Diagnostics
       (RemsContentProvider.Configure network_accepting (RemsContentProvider.New "dev")
          {| RemsContentProvider.Config := attr.ValueUnknown |} provider_fresh)).
Proof.
  apply (proj2 (provider_Configure_error network_accepting (RemsContentProvider.New "dev")
                  {| RemsContentProvider.Config := attr.ValueUnknown |} provider_fresh)).
  reflexivity.
Defined.

(** ** The field list at the edges *)

Lemma filter_untitled fs :
  Forall (λ f, ¬ title_known f) fs → filter title_known fs = [].
Proof.
  induction 1 as [|f fs Hf _ IH]; [done|]. by rewrite filter_cons_False.
Qed.

Lemma titles_convert_untitled fs :
  Forall (λ f, ¬ title_known f) fs → titles_convert fs.
Proof.
  unfold titles_convert. intros Hall. eapply Forall_impl; [exact Hall|].
  intros f Hf elems Htitle. destruct Hf. unfold title_known. by rewrite Htitle.
Qed.

(** X16. With a client and no error on entry: a plan whose field list is
    null, or holds no field with a known title (in particular the empty
    list), is still sent, in one request without fields; a plan whose field
    list is unknown, or holds a null or unknown object, is answered with an
    error before any request. *)
Theorem Create_field_list_edges r c resp m :
  client r = Some c →
  diag.HasError (resource.Diagnostics resp) = false →
  (FormResourceModel.Fields m = attr.ValueNull →
   ∃ cmd, api_calls (trace_of (Create r (plan_of m) resp)) = [cmd] ∧
          remsclient.FormFields cmd = []) ∧
  (∀ fs, FormResourceModel.Fields m = attr.ValueKnown (attr.ValueKnown <$> fs) →
         Forall (λ f, ¬ title_known f) fs →
         ∃ cmd, api_calls (trace_of (Create r (plan_of m) resp)) = [cmd] ∧
                remsclient.FormFields cmd = []) ∧
  (FormResourceModel.Fields m = attr.ValueUnknown ∨
   (∃ elems o, FormResourceModel.Fields m = attr.ValueKnown elems ∧ o ∈ elems ∧
               attr.IsNull o || attr.IsUnknown o = true) →
   ∃ resp', Create r (plan_of m) resp = Returned resp' [] ∧
            diag.HasError (resource.Diagnostics resp') = true ∧
            resource.State resp' = resource.State resp).
Proof.
  intros Hc Hresp. split; [|split].
  - intros Hnull. exists (command_of m []). split; [|done].
    rewrite (api_calls_clean r _ resp m []), Hc; [done|].
    split; [done|]. split; [done|]. split; [by left | constructor].
  - intros fs Hfs Huntitled. exists (command_of m fs). split.
    + rewrite (api_calls_clean r _ resp m fs), Hc; [done|].
      apply (clean_plan_of m fs resp Hfs). split; [done|].
      by apply titles_convert_untitled.
    + unfold command_of. cbn. by rewrite filter_untitled.
  - intros Hbad. apply Create_unclean.
    intros m' fs' (_ & [= <-] & Hplanned & _).
    destruct Hbad as [Hunknown|(elems & o & Helems & Hin & Ho)].
    + destruct Hplanned as [[? _]|?]; congruence.
    + destruct Hplanned as [[? _]|Hknown]; [congruence|].
      rewrite Hknown in Helems. injection Helems as <-.
      apply list_elem_of_fmap in Hin as (f & -> & _). done.
Qed.

Lemma Create_field_list_edges_witness :
  ∃ cmd,
    api_calls (trace_of
      (Create (configured rems_accepting)
         (plan_of (form_model [field_untitled])) fresh_response)) = [cmd] ∧
    remsclient.FormFields cmd = [].
Proof.
  apply (proj1 (proj2 (Create_field_list_edges (configured rems_accepting)
                         rems_accepting fresh_response
                         (form_model [field_untitled]) eq_refl eq_refl))
           [field_untitled]).
  - reflexivity.
  - constructor; [|constructor]. by intros [? _].
Defined.
